(** * ComfyUI-basic-pitch: the two nodes of [nodes.py]

    A shallow embedding of [AudioToMidi.convert_audio_to_midi] and
    [SaveMidi.save_midi], with the Python values, exceptions, files and
    external libraries they touch, followed by the properties the
    specification states about them.

    Conventions of the embedding:
    - a Python [float] is an IEEE 754 binary64 number, a [spec_float] of
      the Standard Library with precision 53 and maximal exponent 1024;
    - a Python [int] is an unbounded [Z];
    - a call that may raise returns a [result]; a call that touches the
      file system or the inference model is a function of the [world];
    - [basic_pitch.inference.predict] and the byte layout of
      [midiutil.MIDIFile.writeFile] are not part of the repository: they are
      variables of the sections that use them. *)

From Stdlib Require Import ZArith Floats.SpecFloat Strings.Ascii Strings.String Strings.Byte.
From stdpp Require Import gmap strings list sorting pretty.

Local Open Scope string_scope.
Local Open Scope Z_scope.

(** * Exceptions *)

(** The classes the code and its collaborators raise. [KeyboardInterrupt]
    and [SystemExit] derive from [BaseException] only: a clause
    [except Exception] lets them through. *)
Inductive exn_class :=
  | ValueError | TypeError | OverflowError | IndexError | RuntimeError
  | FileNotFoundError | FileExistsError | IsADirectoryError
  | NotADirectoryError | PermissionError | OSError
  | KeyboardInterrupt | SystemExit
  | OtherException (name : string).

Definition is_Exception (c : exn_class) : bool :=
  match c with
  | KeyboardInterrupt | SystemExit => false
  | _ => true
  end.

(** An exception instance: its class and the text [str(e)] gives. *)
Record exn := Exn { exn_class_of : exn_class; exn_str : string }.

Inductive result (A : Type) :=
  | Ok (a : A)
  | Raise (e : exn).
Arguments Ok {A} a.
Arguments Raise {A} e.

Definition rbind {A B} (r : result A) (k : A -> result B) : result B :=
  match r with
  | Ok a => k a
  | Raise e => Raise e
  end.

Notation "x <~ c ;; k" := (rbind c (fun x => k))
  (at level 62, c at next level, right associativity).

(** * Python values *)

Module Py.

Definition prec : Z := 53.
Definition emax : Z := 1024.

(** The values a field of a note can hold. *)
Inductive pyval :=
  | PyNone
  | PyBool (b : bool)
  | PyInt (z : Z)
  | PyFloat (f : spec_float).

Definition type_name (v : pyval) : string :=
  match v with
  | PyNone => "NoneType"
  | PyBool _ => "bool"
  | PyInt _ => "int"
  | PyFloat _ => "float"
  end.

Definition is_nan (f : spec_float) : bool :=
  match f with S754_nan => true | _ => false end.

(** [int(f)] on a float: truncation toward zero. *)
Definition float_trunc (f : spec_float) : result Z :=
  match f with
  | S754_zero _ => Ok 0
  | S754_finite s m e =>
      let a := if 0 <=? e then Z.pos m * 2 ^ e else Z.pos m / 2 ^ (- e) in
      Ok (if s then - a else a)
  | S754_infinity _ =>
      Raise (Exn OverflowError "cannot convert float infinity to integer")
  | S754_nan => Raise (Exn ValueError "cannot convert float NaN to integer")
  end.

(** [float(z)] on an int: the nearest binary64, ties to even. *)
Definition float_of_Z (z : Z) : result spec_float :=
  match binary_normalize prec emax z 0 false with
  | S754_infinity _ => Raise (Exn OverflowError "int too large to convert to float")
  | f => Ok f
  end.

Definition Z_of_bool (b : bool) : Z := if b then 1 else 0.

(** [int(v)] *)
Definition int (v : pyval) : result Z :=
  match v with
  | PyInt z => Ok z
  | PyBool b => Ok (Z_of_bool b)
  | PyFloat f => float_trunc f
  | PyNone =>
      Raise (Exn TypeError
        "int() argument must be a string, a bytes-like object or a real number, not 'NoneType'")
  end.

(** [float(v)] *)
Definition float (v : pyval) : result spec_float :=
  match v with
  | PyFloat f => Ok f
  | PyInt z => float_of_Z z
  | PyBool b => float_of_Z (Z_of_bool b)
  | PyNone =>
      Raise (Exn TypeError "float() argument must be a string or a real number, not 'NoneType'")
  end.

(** [a - b]: int arithmetic between ints and bools, float arithmetic as
    soon as one operand is a float. *)
Definition sub (a b : pyval) : result pyval :=
  match a, b with
  | PyNone, _ | _, PyNone =>
      Raise (Exn TypeError
        ("unsupported operand type(s) for -: '" +:+ type_name a +:+ "' and '"
           +:+ type_name b +:+ "'"))
  | PyFloat _, _ | _, PyFloat _ =>
      x <~ float a ;; y <~ float b ;; Ok (PyFloat (SFsub prec emax x y))
  | _, _ => x <~ int a ;; y <~ int b ;; Ok (PyInt (x - y))
  end.

(** Exact comparison of a float with an int, as [float.__lt__] does it. *)
Definition float_compare_Z (f : spec_float) (z : Z) : option comparison :=
  match f with
  | S754_nan => None
  | S754_infinity s => Some (if s then Lt else Gt)
  | S754_zero _ => Some (0 ?= z)
  | S754_finite s m e =>
      let v := if s then Z.neg m else Z.pos m in
      Some (if 0 <=? e then v * 2 ^ e ?= z else v ?= z * 2 ^ (- e))
  end.

Definition is_Lt (c : option comparison) : bool :=
  match c with Some Lt => true | _ => false end.
Definition is_Gt (c : option comparison) : bool :=
  match c with Some Gt => true | _ => false end.

(** [a < b] *)
Definition lt (a b : pyval) : result bool :=
  match a, b with
  | PyNone, _ | _, PyNone =>
      Raise (Exn TypeError
        ("'<' not supported between instances of '" +:+ type_name a +:+ "' and '"
           +:+ type_name b +:+ "'"))
  | PyFloat x, PyFloat y => Ok (SFltb x y)
  | PyFloat x, _ => z <~ int b ;; Ok (is_Lt (float_compare_Z x z))
  | _, PyFloat y => z <~ int a ;; Ok (is_Gt (float_compare_Z y z))
  | _, _ => x <~ int a ;; y <~ int b ;; Ok (x <? y)
  end.

(** [t[i]] on a tuple *)
Definition index (t : list pyval) (i : nat) : result pyval :=
  match t !! i with
  | Some v => Ok v
  | None => Raise (Exn IndexError "tuple index out of range")
  end.

(** ** [list.sort(key=...)]

    The keys are computed first, then the list is sorted on them with [<]
    alone, element after element from the left; an element goes after every
    element that is not greater, which keeps equal keys in their order.
    Where [<] orders the keys totally, this is the list every stable sort
    returns, the interpreter's included. An exception of [key] or of [<]
    ends the sort. *)
Section Sort.
Context {A : Type}.

Fixpoint keyed (key : A -> result pyval) (l : list A) : result (list (pyval * A)) :=
  match l with
  | [] => Ok []
  | x :: l' => k <~ key x ;; r <~ keyed key l' ;; Ok ((k, x) :: r)
  end.

Fixpoint insert (x : pyval * A) (acc : list (pyval * A)) : result (list (pyval * A)) :=
  match acc with
  | [] => Ok [x]
  | y :: acc' =>
      b <~ lt (fst x) (fst y) ;;
      if b then Ok (x :: y :: acc') else (r <~ insert x acc' ;; Ok (y :: r))
  end.

Fixpoint sort_from (acc l : list (pyval * A)) : result (list (pyval * A)) :=
  match l with
  | [] => Ok acc
  | x :: l' => acc' <~ insert x acc ;; sort_from acc' l'
  end.

Definition sort (key : A -> result pyval) (l : list A) : result (list A) :=
  ks <~ keyed key l ;;
  r <~ sort_from [] ks ;;
  Ok (map snd r).
End Sort.

End Py.

(** * The file system: [os.path.exists], [os.makedirs], [os.path.join], [open]

    POSIX paths without symbolic links or permissions. A node is addressed
    by the list of its components from the root, and relative paths are
    resolved from the root. The text of the operating system's messages is
    indicative. *)

Module Os.

Inductive node :=
  | File (content : list byte)
  | Dir.

Inductive errno := ENOENT | ENOTDIR | EEXIST | EISDIR.

Definition os_error (n : errno) (path : string) : exn :=
  match n with
  | ENOENT =>
      Exn FileNotFoundError ("[Errno 2] No such file or directory: '" +:+ path +:+ "'")
  | ENOTDIR =>
      Exn NotADirectoryError ("[Errno 20] Not a directory: '" +:+ path +:+ "'")
  | EEXIST =>
      Exn FileExistsError ("[Errno 17] File exists: '" +:+ path +:+ "'")
  | EISDIR =>
      Exn IsADirectoryError ("[Errno 21] Is a directory: '" +:+ path +:+ "'")
  end.

Definition slash : ascii := "/"%char.

Fixpoint split_slash (cur s : string) : list string :=
  match s with
  | EmptyString => [cur]
  | String c s' =>
      if Ascii.eqb c slash then cur :: split_slash "" s'
      else split_slash (cur +:+ String c "") s'
  end.

Definition is_name (c : string) : bool :=
  negb (String.eqb c "" || String.eqb c ".").

(** The components of a path: empty ones and ["."] are dropped, [".."]
    stays and is interpreted by [step]. *)
Definition components (s : string) : list string :=
  List.filter is_name (split_slash "" s).

(** A path that ends in a slash, ["."] or [".."] names a directory. *)
Definition must_be_dir (s : string) : bool :=
  match last (split_slash "" s) with
  | Some c => String.eqb c "" || String.eqb c "." || String.eqb c ".."
  | None => true
  end.

Definition step (cur : list string) (c : string) : list string :=
  if String.eqb c ".." then removelast cur else cur ++ [c].

Definition lookup_node (fs : gmap (list string) node) (p : list string) : option node :=
  match p with
  | [] => Some Dir
  | _ => fs !! p
  end.

(** Path resolution: every component but the last is looked up in a
    directory that exists. *)
Fixpoint resolve (fs : gmap (list string) node) (cur cs : list string)
  : errno + list string :=
  match cs with
  | [] => inr cur
  | c :: cs' =>
      match lookup_node fs cur with
      | Some Dir => resolve fs (step cur c) cs'
      | Some (File _) => inl ENOTDIR
      | None => inl ENOENT
      end
  end.

(** [os.path.exists(s)]: false on every error of the look-up. *)
Definition path_exists (fs : gmap (list string) node) (s : string) : bool :=
  if String.eqb s "" then false
  else match resolve fs [] (components s) with
       | inr p =>
           match lookup_node fs p with
           | Some Dir => true
           | Some (File _) => negb (must_be_dir s)
           | None => false
           end
       | inl _ => false
       end.

(** [os.makedirs(s, exist_ok=True)]: every missing directory on the way is
    created; a regular file on the way is an error. *)
Fixpoint mkdirs (fs : gmap (list string) node) (cur cs : list string)
  : errno + gmap (list string) node :=
  match cs with
  | [] => inr fs
  | c :: cs' =>
      let p := step cur c in
      match lookup_node fs p with
      | Some Dir => mkdirs fs p cs'
      | Some (File _) => inl (match cs' with [] => EEXIST | _ => ENOTDIR end)
      | None => mkdirs (<[p := Dir]> fs) p cs'
      end
  end.

Definition makedirs (fs : gmap (list string) node) (s : string)
  : result (gmap (list string) node) :=
  if String.eqb s "" then Raise (os_error ENOENT s)
  else match mkdirs fs [] (components s) with
       | inr fs' => Ok fs'
       | inl n => Raise (os_error n s)
       end.

Definition ends_with_slash (s : string) : bool :=
  match last (split_slash "" s) with
  | Some c => String.eqb c ""
  | None => false
  end.

Definition starts_with_slash (s : string) : bool :=
  match s with
  | String c _ => Ascii.eqb c slash
  | EmptyString => false
  end.

(** [os.path.join(a, b)] *)
Definition path_join (a b : string) : string :=
  if starts_with_slash b then b
  else if String.eqb a "" || ends_with_slash a then a +:+ b
  else a +:+ "/" +:+ b.

(** [open(s, "wb")]: the file is created or truncated; the handle is the
    node's address. *)
Definition open_wb (fs : gmap (list string) node) (s : string)
  : result (list string * gmap (list string) node) :=
  if String.eqb s "" then Raise (os_error ENOENT s)
  else match resolve fs [] (components s) with
       | inl n => Raise (os_error n s)
       | inr p =>
           match lookup_node fs p with
           | Some Dir => Raise (os_error EISDIR s)
           | Some (File _) =>
               if must_be_dir s then Raise (os_error ENOTDIR s)
               else Ok (p, <[p := File []]> fs)
           | None =>
               if must_be_dir s then Raise (os_error EISDIR s)
               else Ok (p, <[p := File []]> fs)
           end
       end.

(** [f.write(bs)] on an open handle *)
Definition write (fs : gmap (list string) node) (f : list string) (bs : list byte)
  : gmap (list string) node :=
  match fs !! f with
  | Some (File content) => <[f := File (content ++ bs)]> fs
  | _ => fs
  end.

End Os.

(** * The world and the monad of effects *)

(** A call of the inference model, as the world records it. *)
Inductive call :=
  | PredictCall (audio_path : string) (onset_threshold frame_threshold : spec_float).

Record world := World {
  w_fs : gmap (list string) Os.node;
  w_calls : list call
}.

Definition M (A : Type) : Type := world -> result A * world.

Definition ret {A} (a : A) : M A := fun w => (Ok a, w).

Definition raise {A} (e : exn) : M A := fun w => (Raise e, w).

Definition bind {A B} (c : M A) (k : A -> M B) : M B :=
  fun w =>
    match c w with
    | (Ok a, w') => k a w'
    | (Raise e, w') => (Raise e, w')
    end.

Definition lift {A} (r : result A) : M A := fun w => (r, w).

Notation "x <- c ;; k" := (bind c (fun x => k))
  (at level 62, c at next level, right associativity).

(** [try: body except Exception as e: handler e] *)
Definition try_except {A} (body : M A) (handler : exn -> M A) : M A :=
  fun w =>
    match body w with
    | (Ok a, w') => (Ok a, w')
    | (Raise e, w') =>
        if is_Exception (exn_class_of e) then handler e w' else (Raise e, w')
    end.

Definition get_fs : M (gmap (list string) Os.node) := fun w => (Ok (w_fs w), w).

Definition put_fs (fs : gmap (list string) Os.node) : M unit :=
  fun w => (Ok tt, World fs (w_calls w)).

Definition os_path_exists (s : string) : M bool :=
  fs <- get_fs ;; ret (Os.path_exists fs s).

Definition os_makedirs (s : string) : M unit :=
  fs <- get_fs ;; fs' <- lift (Os.makedirs fs s) ;; put_fs fs'.

Definition open_wb (s : string) : M (list string) :=
  fs <- get_fs ;;
  r <- lift (Os.open_wb fs s) ;;
  _ <- put_fs (snd r) ;;
  ret (fst r).

Definition file_write (f : list string) (bs : list byte) : M unit :=
  fs <- get_fs ;; put_fs (Os.write fs f bs).

(** * The inference model's output ([pretty_midi.PrettyMIDI]) *)

Module PrettyMidi.

Record Note := {
  pitch : Py.pyval;
  start : Py.pyval;
  end_ : Py.pyval;
  velocity : Py.pyval
}.

Record Instrument := { notes : list Note }.

Record PrettyMIDI := { instruments : list Instrument }.

End PrettyMidi.

(** * The MIDI writer ([midiutil.MIDIFile])

    The object keeps what it has been told, in the order of the calls. The
    calls the library answers with an exception ([rejects], from the state
    of the object and the call) and the bytes it produces ([writeFile])
    are the library's: variables of the section of [SaveMidi]. *)

Module MidiUtil.

Inductive event :=
  | TrackName (track : Z) (time : Py.pyval) (trackName : string)
  | Tempo (track : Z) (time : Py.pyval) (tempo : Z)
  | NoteEvent (track channel pitch : Z) (time duration : Py.pyval) (volume : Z).

Record MIDIFile := { numTracks : Z; events : list event }.

Definition new (numTracks : Z) : MIDIFile :=
  {| numTracks := numTracks; events := [] |}.

Definition add (rejects : MIDIFile -> event -> option exn)
    (midi : MIDIFile) (ev : event) : result MIDIFile :=
  match rejects midi ev with
  | Some e => Raise e
  | None => Ok {| numTracks := numTracks midi; events := events midi ++ [ev] |}
  end.

Definition addTrackName (rejects : MIDIFile -> event -> option exn)
    (midi : MIDIFile) (track : Z) (time : Py.pyval) (trackName : string) : result MIDIFile :=
  add rejects midi (TrackName track time trackName).

Definition addTempo (rejects : MIDIFile -> event -> option exn)
    (midi : MIDIFile) (track : Z) (time : Py.pyval) (tempo : Z) : result MIDIFile :=
  add rejects midi (Tempo track time tempo).

Definition addNote (rejects : MIDIFile -> event -> option exn)
    (midi : MIDIFile) (track channel pitch : Z) (time duration : Py.pyval) (volume : Z)
  : result MIDIFile :=
  add rejects midi (NoteEvent track channel pitch time duration volume).

Definition is_note (ev : event) : bool :=
  match ev with
  | NoteEvent _ _ _ _ _ _ => true
  | _ => false
  end.

End MidiUtil.

(** * [class AudioToMidi] *)

Module AudioToMidi.
Import PrettyMidi.

Section Node.
(** [basic_pitch.inference.predict]: what the model returns for a path and
    two thresholds, given the files it can read. Of the three values it
    returns, the code uses the second, [midi_data]. *)
Variable predict :
  string -> spec_float -> spec_float -> gmap (list string) Os.node -> result PrettyMIDI.

Definition call_predict (audio_path : string) (onset_threshold frame_threshold : spec_float)
  : M PrettyMIDI :=
  fun w =>
    (predict audio_path onset_threshold frame_threshold (w_fs w),
     World (w_fs w) (w_calls w ++ [PredictCall audio_path onset_threshold frame_threshold])).

(** The tuple appended for one note. *)
Definition note_tuple (note : Note) : result (list Py.pyval) :=
  p <~ Py.int (pitch note) ;;
  s <~ Py.float (start note) ;;
  e <~ Py.float (end_ note) ;;
  v <~ Py.int (velocity note) ;;
  Ok [Py.PyInt p; Py.PyFloat s; Py.PyFloat e; Py.PyInt v].

(** [for note in instrument.notes: processed_midi_data.append(...)] *)
Fixpoint for_notes (ns : list Note) (processed_midi_data : list (list Py.pyval))
  : result (list (list Py.pyval)) :=
  match ns with
  | [] => Ok processed_midi_data
  | note :: ns' =>
      t <~ note_tuple note ;;
      for_notes ns' (processed_midi_data ++ [t])
  end.

(** [for instrument in midi_data.instruments: ...] *)
Fixpoint for_instruments (ins : list Instrument) (processed_midi_data : list (list Py.pyval))
  : result (list (list Py.pyval)) :=
  match ins with
  | [] => Ok processed_midi_data
  | instrument :: ins' =>
      processed <~ for_notes (notes instrument) processed_midi_data ;;
      for_instruments ins' processed
  end.

(** [lambda x: x[1]] *)
Definition start_key (x : list Py.pyval) : result Py.pyval := Py.index x 1.

(** The method returns the one-element tuple [(processed_midi_data,)];
    the embedding returns its element. *)
Definition convert_audio_to_midi
    (audio_path : string) (onset_threshold frame_threshold : spec_float)
  : M (list (list Py.pyval)) :=
  found <- os_path_exists audio_path ;;
  if negb found then
    raise (Exn ValueError ("Audio file not found: " +:+ audio_path))
  else
    try_except
      (midi_data <- call_predict audio_path onset_threshold frame_threshold ;;
       processed_midi_data <- lift (for_instruments (instruments midi_data) []) ;;
       sorted <- lift (Py.sort start_key processed_midi_data) ;;
       ret sorted)
      (fun e =>
         raise (Exn RuntimeError
                  ("Error during audio-to-MIDI conversion: " +:+ exn_str e))).
End Node.

End AudioToMidi.

(** * [class SaveMidi] *)

Module SaveMidi.
Import MidiUtil.

Section Node.
Variable rejects : MIDIFile -> event -> option exn.
(** The bytes [writeFile] hands to the file, and the exception that may
    end it. *)
Variable writeFile : MIDIFile -> list byte * option exn.

(** [max(0, min(127, x))] *)
Definition clamp (x : Z) : Z := Z.max 0 (Z.min 127 x).

(** What [pitch, start_time, end_time, velocity = note] raises on a tuple
    of [n] fields, [n] other than four. *)
Definition unpack_error (n : nat) : exn :=
  Exn ValueError
    (if (n <? 4)%nat
     then "not enough values to unpack (expected 4, got " +:+ pretty n +:+ ")"
     else "too many values to unpack (expected 4)").

(** The body of the loop over [midi_data], for one [note];
    [track = 0], [channel = 0]. *)
Definition add_note (midi : MIDIFile) (note : list Py.pyval) : result MIDIFile :=
  if negb (length note =? 4)%nat then Ok midi
  else
    match note with
    | [pitch; start_time; end_time; velocity] =>
        duration <~ Py.sub end_time start_time ;;
        pitch <~ Py.int pitch ;;
        velocity <~ Py.int velocity ;;
        addNote rejects midi 0 0 (clamp pitch) start_time duration (clamp velocity)
    | _ => Raise (unpack_error (length note))
    end.

Fixpoint for_notes (midi_data : list (list Py.pyval)) (midi : MIDIFile)
  : result MIDIFile :=
  match midi_data with
  | [] => Ok midi
  | note :: rest => midi' <~ add_note midi note ;; for_notes rest midi'
  end.

(** The track as it stands when the loop is over. *)
Definition build (midi_data : list (list Py.pyval)) (tempo : Z) : result MIDIFile :=
  midi <~ addTrackName rejects (new 1) 0 (Py.PyInt 0) "Track 1" ;;
  midi <~ addTempo rejects midi 0 (Py.PyInt 0) tempo ;;
  for_notes midi_data midi.

(** [with open(output_file, "wb") as f: midi.writeFile(f)] *)
Definition write_midi (midi : MIDIFile) (output_file : string) : M unit :=
  f <- open_wb output_file ;;
  _ <- file_write f (fst (writeFile midi)) ;;
  match snd (writeFile midi) with
  | Some e => raise e
  | None => ret tt
  end.

Definition save_midi (midi_data : list (list Py.pyval))
    (file_name output_path : string) (tempo : Z) : M unit :=
  match midi_data with
  | [] => raise (Exn ValueError "No MIDI data provided")
  | _ =>
      midi <- lift (build midi_data tempo) ;;
      _ <- os_makedirs output_path ;;
      let output_file := Os.path_join output_path file_name in
      _ <- try_except
             (write_midi midi output_file)
             (fun e => raise (Exn RuntimeError ("Error saving MIDI file: " +:+ exn_str e))) ;;
      ret tt
  end.
End Node.

End SaveMidi.

(** * Vocabulary of the statements *)

(** [os.path.isfile(s)] and the content a reader finds at [s]. *)
Definition read_file (fs : gmap (list string) Os.node) (s : string) : option (list byte) :=
  if String.eqb s "" then None
  else match Os.resolve fs [] (Os.components s) with
       | inr p =>
           match Os.lookup_node fs p with
           | Some (Os.File content) => if Os.must_be_dir s then None else Some content
           | _ => None
           end
       | inl _ => None
       end.

Definition isfile (fs : gmap (list string) Os.node) (s : string) : bool :=
  match read_file fs s with Some _ => true | None => false end.

(** The start time of an entry of the note list, when it is a float. *)
Definition start_time (t : list Py.pyval) : option spec_float :=
  match t !! 1%nat with
  | Some (Py.PyFloat s) => Some s
  | _ => None
  end.

(** [t[1] == k] on floats *)
Definition starts_at (k : spec_float) (t : list Py.pyval) : bool :=
  match start_time t with
  | Some s => SFeqb s k
  | None => false
  end.

(** The notes of the model's output, instrument after instrument. *)
Definition all_notes (midi_data : PrettyMidi.PrettyMIDI) : list PrettyMidi.Note :=
  concat (map PrettyMidi.notes (PrettyMidi.instruments midi_data)).

(** An entry as the converter builds it. *)
Definition is_note_event (t : list Py.pyval) : Prop :=
  exists (p : Z) (s e : spec_float) (v : Z),
    t = [Py.PyInt p; Py.PyFloat s; Py.PyFloat e; Py.PyInt v].

Definition conversion_error (e : exn) : exn :=
  Exn RuntimeError ("Error during audio-to-MIDI conversion: " +:+ exn_str e).

Definition saving_error (e : exn) : exn :=
  Exn RuntimeError ("Error saving MIDI file: " +:+ exn_str e).

(** A result that is a value, or an exception [except Exception] catches. *)
Definition raises_Exception {A} (r : result A) : Prop :=
  match r with
  | Ok _ => True
  | Raise e => is_Exception (exn_class_of e) = true
  end.

(** What the [try] block of the converter computes from the model's output. *)
Definition processed (midi_data : PrettyMidi.PrettyMIDI) : result (list (list Py.pyval)) :=
  flat <~ AudioToMidi.for_instruments (PrettyMidi.instruments midi_data) [] ;;
  Py.sort AudioToMidi.start_key flat.

(** The world once the model has been called. *)
Definition called (audio_path : string) (onset frame : spec_float) (w : world) : world :=
  World (w_fs w) (w_calls w ++ [PredictCall audio_path onset frame]).

(** [len(note) == 4] *)
Definition has_four_fields (note : list Py.pyval) : bool := (length note =? 4)%nat.

(** What the writer does once the loop over the notes is over, from the
    outcome [track] of the loop: the directory, the file, the bytes. *)
Definition persist (writeFile : MidiUtil.MIDIFile -> list byte * option exn)
    (track : result MidiUtil.MIDIFile) (file_name output_path : string) : M unit :=
  fun w =>
    match track with
    | Raise e => (Raise e, w)
    | Ok midi =>
        match Os.makedirs (w_fs w) output_path with
        | Raise e => (Raise e, w)
        | Ok fs1 =>
            match Os.open_wb fs1 (Os.path_join output_path file_name) with
            | Raise e => (Raise (saving_error e), World fs1 (w_calls w))
            | Ok (f, fs2) =>
                (match snd (writeFile midi) with
                 | Some e =>
                     Raise (if is_Exception (exn_class_of e) then saving_error e else e)
                 | None => Ok tt
                 end,
                 World (Os.write fs2 f (fst (writeFile midi))) (w_calls w))
            end
        end
    end.

(** The pitch and the volume of a note event lie in the MIDI range. *)
Definition in_midi_range (ev : MidiUtil.event) : Prop :=
  match ev with
  | MidiUtil.NoteEvent _ _ p _ _ v => 0 <= p <= 127 /\ 0 <= v <= 127
  | _ => True
  end.

(** The note event the writer adds for an entry of four fields. *)
Definition added_for (note : list Py.pyval) (ev : MidiUtil.event) : Prop :=
  exists pitch start_time end_time velocity p v duration,
    note = [pitch; start_time; end_time; velocity] /\
    Py.int pitch = Ok p /\
    Py.int velocity = Ok v /\
    Py.sub end_time start_time = Ok duration /\
    ev = MidiUtil.NoteEvent 0 0 (Z.max 0 (Z.min 127 p)) start_time duration
           (Z.max 0 (Z.min 127 v)).

(** The outcome of two comparisons in a row, neither of them [Gt]. *)
Definition below (c1 c2 : comparison) : comparison :=
  match c1, c2 with
  | Eq, Eq => Eq
  | Eq, Lt | Lt, Eq | Lt, Lt => Lt
  | _, _ => Gt
  end.

(** Entries paired with their sort keys, when the keys are floats. *)
Definition float_key {A} (kx : Py.pyval * A) : Prop :=
  exists s, fst kx = Py.PyFloat s /\ Py.is_nan s = false.

Definition key_le {A} (a b : Py.pyval * A) : Prop :=
  exists sa sb, fst a = Py.PyFloat sa /\ fst b = Py.PyFloat sb /\ SFleb sa sb = true.

Definition key_at {A} (k : spec_float) (kx : Py.pyval * A) : bool :=
  match fst kx with
  | Py.PyFloat s => SFeqb s k
  | _ => false
  end.

(** A note list in the order of its start times: [notes[i][1] <= notes[i+1][1]]. *)
Definition sorted_by_start (notes : list (list Py.pyval)) : Prop :=
  forall (i : nat) a b,
    notes !! i = Some a -> notes !! S i = Some b ->
    exists sa sb, start_time a = Some sa /\ start_time b = Some sb /\ SFleb sa sb = true.

(** The entries of [out] that start at a given time are those of [flat],
    in the order they have there. *)
Definition stable_on_start (flat out : list (list Py.pyval)) : Prop :=
  forall k, List.filter (starts_at k) out = List.filter (starts_at k) flat.

(** A keyed entry whose key is its start time, a float that is a number. *)
Definition keyed_by_start (kx : Py.pyval * list Py.pyval) : Prop :=
  exists s, fst kx = Py.PyFloat s /\ Py.is_nan s = false /\ start_time (snd kx) = Some s.

(** Every directory of [fs] is a directory of [fs']. *)
Definition dirs_kept (fs fs' : gmap (list string) Os.node) : Prop :=
  forall p, Os.lookup_node fs p = Some Os.Dir -> Os.lookup_node fs' p = Some Os.Dir.

(** The note event of the writer for an entry of the converter: the pitch
    and the velocity within 0 and 127, the start as it is, the duration
    [end_time - start_time] in binary64. *)
Definition note_event_of (t : list Py.pyval) : option MidiUtil.event :=
  match t with
  | [Py.PyInt p; Py.PyFloat s; Py.PyFloat e; Py.PyInt v] =>
      Some (MidiUtil.NoteEvent 0 0 (SaveMidi.clamp p) (Py.PyFloat s)
              (Py.PyFloat (SFsub Py.prec Py.emax e s)) (SaveMidi.clamp v))
  | _ => None
  end.

(** The track of the writer with the note events [evs]. *)
Definition track_of (tempo : Z) (evs : list MidiUtil.event) : MidiUtil.MIDIFile :=
  {| MidiUtil.numTracks := 1;
     MidiUtil.events :=
       MidiUtil.TrackName 0 (Py.PyInt 0) "Track 1"
         :: MidiUtil.Tempo 0 (Py.PyInt 0) tempo :: evs |}.

(** The address of the destination of the writer in the file system [fs]. *)
Definition destination (fs : gmap (list string) Os.node) (file_name output_path : string)
  : Os.errno + list string :=
  Os.resolve fs [] (Os.components (Os.path_join output_path file_name)).

(** * Concrete worlds and collaborators, for the examples *)

Module Fixture.
Import PrettyMidi MidiUtil.

(** The binary64 number [m * 2^e]. *)
Definition dyadic (m e : Z) : spec_float := binary_normalize Py.prec Py.emax m e false.

Definition fs : gmap (list string) Os.node :=
  {[ ["tmp"] := Os.Dir;
     ["tmp"; "a.wav"] := Os.File [x52; x49; x46; x46];
     ["tmp"; "taken"] := Os.File [] ]}.

Definition w : world := World fs [].

Definition note (p : Z) (s e : spec_float) (v : Z) : Note :=
  {| pitch := Py.PyInt p; start := Py.PyFloat s; end_ := Py.PyFloat e;
     velocity := Py.PyInt v |}.

(** Two instruments; the starts are 1.0, 0.5, 1.0 and 0.5. *)
Definition midi_data : PrettyMIDI :=
  {| instruments :=
       [ {| notes := [note 60 (dyadic 1 0) (dyadic 2 0) 100;
                      note 62 (dyadic 1 (-1)) (dyadic 2 0) 90] |};
         {| notes := [note 64 (dyadic 1 0) (dyadic 3 0) 80;
                      note 65 (dyadic 1 (-1)) (dyadic 1 0) 70] |} ] |}.

(** Its tuples in the order of the model, and in the order of the starts. *)
Definition flat : list (list Py.pyval) :=
  [[Py.PyInt 60; Py.PyFloat (dyadic 1 0); Py.PyFloat (dyadic 2 0); Py.PyInt 100];
   [Py.PyInt 62; Py.PyFloat (dyadic 1 (-1)); Py.PyFloat (dyadic 2 0); Py.PyInt 90];
   [Py.PyInt 64; Py.PyFloat (dyadic 1 0); Py.PyFloat (dyadic 3 0); Py.PyInt 80];
   [Py.PyInt 65; Py.PyFloat (dyadic 1 (-1)); Py.PyFloat (dyadic 1 0); Py.PyInt 70]].

Definition sorted : list (list Py.pyval) :=
  [[Py.PyInt 62; Py.PyFloat (dyadic 1 (-1)); Py.PyFloat (dyadic 2 0); Py.PyInt 90];
   [Py.PyInt 65; Py.PyFloat (dyadic 1 (-1)); Py.PyFloat (dyadic 1 0); Py.PyInt 70];
   [Py.PyInt 60; Py.PyFloat (dyadic 1 0); Py.PyFloat (dyadic 2 0); Py.PyInt 100];
   [Py.PyInt 64; Py.PyFloat (dyadic 1 0); Py.PyFloat (dyadic 3 0); Py.PyInt 80]].

Definition predict (audio_path : string) (onset frame : spec_float)
    (fs : gmap (list string) Os.node) : result PrettyMIDI :=
  match read_file fs audio_path with
  | Some _ => Ok midi_data
  | None => Raise (Exn (OtherException "NoBackendError") "cannot decode audio")
  end.

Definition rejects (midi : MIDIFile) (ev : event) : option exn := None.

Definition byte_of_Z (z : Z) : byte := default x00 (Byte.of_N (Z.to_N z)).

(** A stand-in for the writer's byte layout: a four-byte magic, then three
    bytes per note. *)
Definition writeFile (midi : MIDIFile) : list byte * option exn :=
  (([x4d; x54; x68; x64] ++
    concat (map (fun ev =>
                   match ev with
                   | NoteEvent _ _ p _ _ v => [x90; byte_of_Z p; byte_of_Z v]
                   | _ => []
                   end) (events midi)))%list,
   None).

(** One entry with the pitch 200 and the velocity -5, and its track. *)
Definition loud : list (list Py.pyval) :=
  [[Py.PyInt 200; Py.PyFloat (dyadic 0 0); Py.PyFloat (dyadic 1 0); Py.PyInt (-5)]].

Definition loud_track : MIDIFile :=
  {| numTracks := 1;
     events := [TrackName 0 (Py.PyInt 0) "Track 1";
                Tempo 0 (Py.PyInt 0) 120;
                NoteEvent 0 0 127 (Py.PyFloat (dyadic 0 0)) (Py.PyFloat (dyadic 1 0)) 0] |}.

(** The world after [loud] has been saved as [/tmp/out/t.mid]. *)
Definition saved : world :=
  World (<[ ["tmp"; "out"; "t.mid"] := Os.File [x4d; x54; x68; x64; x90; x7f; x00] ]>
           (<[ ["tmp"; "out"] := Os.Dir ]> fs)) [].

Definition taken : world :=
  World {[ ["tmp"] := Os.Dir; ["tmp"; "out"] := Os.File [] ]} [].

(** A writer that fails after the magic. *)
Definition writeFile_failing (midi : MIDIFile) : list byte * option exn :=
  ([x4d; x54; x68; x64], Some (Exn IndexError "pop from empty list")).

(** A model that returns the same notes for every path. *)
Definition predict_const (midi_data : PrettyMIDI) (audio_path : string)
    (onset frame : spec_float) (fs : gmap (list string) Os.node) : result PrettyMIDI :=
  Ok midi_data.

(** An output without a note, in two instruments. *)
Definition silence : PrettyMIDI :=
  {| instruments := [ {| notes := [] |}; {| notes := [] |} ] |}.

(** An output whose second note has no pitch. *)
Definition broken : PrettyMIDI :=
  {| instruments :=
       [ {| notes := [note 60 (dyadic 1 0) (dyadic 2 0) 100] |};
         {| notes := [ {| pitch := Py.PyNone; start := Py.PyFloat (dyadic 1 0);
                          end_ := Py.PyFloat (dyadic 2 0); velocity := Py.PyInt 80 |};
                       note 65 (dyadic 1 (-1)) (dyadic 1 0) 70] |} ] |}.

(** The notes of [midi_data] in one instrument. *)
Definition merged : PrettyMIDI :=
  {| instruments :=
       [ {| notes := [note 60 (dyadic 1 0) (dyadic 2 0) 100;
                      note 62 (dyadic 1 (-1)) (dyadic 2 0) 90;
                      note 64 (dyadic 1 0) (dyadic 3 0) 80;
                      note 65 (dyadic 1 (-1)) (dyadic 1 0) 70] |} ] |}.

(** A library that refuses the notes of a volume under 75. *)
Definition rejects_quiet (midi : MIDIFile) (ev : event) : option exn :=
  match ev with
  | NoteEvent _ _ _ _ _ v => if v <? 75 then Some (Exn ValueError "volume too low") else None
  | _ => None
  end.

End Fixture.

(** * Properties *)

(** ** What the pure operations can raise *)

Lemma rbind_Exception {A B} (r : result A) (k : A -> result B) :
  raises_Exception r -> (forall a, raises_Exception (k a)) ->
  raises_Exception (rbind r k).
Proof. destruct r as [a|e]; simpl; auto. Qed.

Lemma float_of_Z_Exception z : raises_Exception (Py.float_of_Z z).
Proof.
  unfold Py.float_of_Z.
  destruct (binary_normalize Py.prec Py.emax z 0 false); simpl; auto.
Qed.

Lemma int_Exception v : raises_Exception (Py.int v).
Proof. destruct v as [| |z|[]]; simpl; auto. Qed.

Lemma float_Exception v : raises_Exception (Py.float v).
Proof. destruct v; simpl; auto using float_of_Z_Exception. Qed.

Lemma lt_Exception a b : raises_Exception (Py.lt a b).
Proof.
  destruct a, b; simpl; auto;
    repeat (apply rbind_Exception; [auto using int_Exception | intros]);
    simpl; auto.
Qed.

Lemma index_Exception t i : raises_Exception (Py.index t i).
Proof. unfold Py.index. destruct (t !! i); simpl; auto. Qed.

Create HintDb py_exn.
#[local] Hint Resolve int_Exception float_Exception lt_Exception index_Exception
  float_of_Z_Exception : py_exn.

Ltac exn_steps :=
  repeat (first
    [ apply rbind_Exception; [ | intros ]
    | solve [ eauto with py_exn ]
    | exact I
    | reflexivity ]).

Lemma insert_Exception {A} (x : Py.pyval * A) acc : raises_Exception (Py.insert x acc).
Proof.
  induction acc as [|y acc IH]; simpl; [exact I|].
  apply rbind_Exception; [apply lt_Exception|].
  intros [|]; simpl; [exact I|].
  apply rbind_Exception; [exact IH | intros; exact I].
Qed.

Lemma sort_from_Exception {A} (l acc : list (Py.pyval * A)) :
  raises_Exception (Py.sort_from acc l).
Proof.
  revert acc. induction l as [|x l IH]; intros acc; simpl; [exact I|].
  apply rbind_Exception; [apply insert_Exception | intros; apply IH].
Qed.

Lemma keyed_Exception {A} (key : A -> result Py.pyval) l :
  (forall x, raises_Exception (key x)) -> raises_Exception (Py.keyed key l).
Proof.
  intros Hk. induction l as [|x l IH]; simpl; [exact I|].
  apply rbind_Exception; [apply Hk | intros].
  apply rbind_Exception; [exact IH | intros; exact I].
Qed.

Lemma sort_Exception {A} (key : A -> result Py.pyval) l :
  (forall x, raises_Exception (key x)) -> raises_Exception (Py.sort key l).
Proof.
  intros Hk. unfold Py.sort.
  apply rbind_Exception; [apply keyed_Exception, Hk | intros].
  apply rbind_Exception; [apply sort_from_Exception | intros; exact I].
Qed.

Lemma note_tuple_Exception n : raises_Exception (AudioToMidi.note_tuple n).
Proof. unfold AudioToMidi.note_tuple. exn_steps. Qed.

Lemma for_notes_Exception ns acc : raises_Exception (AudioToMidi.for_notes ns acc).
Proof.
  revert acc. induction ns as [|n ns IH]; intros acc; simpl; [exact I|].
  apply rbind_Exception; [apply note_tuple_Exception | intros; apply IH].
Qed.

Lemma for_instruments_Exception ins acc :
  raises_Exception (AudioToMidi.for_instruments ins acc).
Proof.
  revert acc. induction ins as [|i ins IH]; intros acc; simpl; [exact I|].
  apply rbind_Exception; [apply for_notes_Exception | intros; apply IH].
Qed.

Lemma os_error_Exception n s : is_Exception (exn_class_of (Os.os_error n s)) = true.
Proof. destruct n; reflexivity. Qed.

Lemma open_wb_Exception fs s : raises_Exception (Os.open_wb fs s).
Proof.
  unfold Os.open_wb.
  repeat (case_match; simpl; auto using os_error_Exception).
Qed.

(** ** One run of the converter, stage by stage *)

Section Converter.
Variable predict :
  string -> spec_float -> spec_float -> gmap (list string) Os.node ->
  result PrettyMidi.PrettyMIDI.

Lemma processed_Exception midi_data : raises_Exception (processed midi_data).
Proof.
  unfold processed.
  apply rbind_Exception; [apply for_instruments_Exception | intros].
  apply sort_Exception. intros x. apply index_Exception.
Qed.

Lemma convert_run audio_path onset frame w :
  AudioToMidi.convert_audio_to_midi predict audio_path onset frame w =
  if Os.path_exists (w_fs w) audio_path then
    match predict audio_path onset frame (w_fs w) with
    | Raise e =>
        (Raise (if is_Exception (exn_class_of e) then conversion_error e else e),
         called audio_path onset frame w)
    | Ok midi_data =>
        match processed midi_data with
        | Ok out => (Ok out, called audio_path onset frame w)
        | Raise e => (Raise (conversion_error e), called audio_path onset frame w)
        end
    end
  else (Raise (Exn ValueError ("Audio file not found: " +:+ audio_path)), w).
Proof.
  unfold AudioToMidi.convert_audio_to_midi, os_path_exists, get_fs, bind, ret.
  destruct (Os.path_exists (w_fs w) audio_path); simpl; [|reflexivity].
  unfold try_except, bind, AudioToMidi.call_predict, lift, called.
  destruct (predict audio_path onset frame (w_fs w)) as [midi_data|e]; simpl.
  - pose proof (processed_Exception midi_data) as HE. unfold processed in *.
    destruct (AudioToMidi.for_instruments _ _) as [flat|e]; simpl in *.
    + destruct (Py.sort _ flat) as [out|e]; simpl in *; [reflexivity|].
      rewrite HE. reflexivity.
    + rewrite HE. reflexivity.
  - destruct (is_Exception (exn_class_of e)); reflexivity.
Qed.
End Converter.

(** ** The converter's failures *)

(** C2. When [audio_path] names nothing that exists, the converter raises
    [ValueError] with the message ["Audio file not found: "] followed by the
    path, and the world is left as it was: no call of the model has been
    recorded. *)
Theorem convert_missing_path
    (predict : string -> spec_float -> spec_float -> gmap (list string) Os.node ->
               result PrettyMidi.PrettyMIDI)
    (audio_path : string) (onset frame : spec_float) (w : world) :
  Os.path_exists (w_fs w) audio_path = false ->
  AudioToMidi.convert_audio_to_midi predict audio_path onset frame w =
    (Raise (Exn ValueError ("Audio file not found: " +:+ audio_path)), w).
Proof. intros H. rewrite convert_run, H. reflexivity. Qed.

Lemma convert_missing_path_witness :
  AudioToMidi.convert_audio_to_midi Fixture.predict "/tmp/missing.wav"
    (Fixture.dyadic 1 (-1)) (Fixture.dyadic 1 (-2)) Fixture.w =
    (Raise (Exn ValueError "Audio file not found: /tmp/missing.wav"), Fixture.w).
Proof.
  apply (convert_missing_path Fixture.predict "/tmp/missing.wav"
           (Fixture.dyadic 1 (-1)) (Fixture.dyadic 1 (-2)) Fixture.w).
  vm_compute. reflexivity.
Defined.

(** C6. On a path that exists, an exception of the inference call is caught
    and raised again as [RuntimeError] with the message
    ["Error during audio-to-MIDI conversion: "] followed by the original
    message; and whatever exception the converter lets out of its [try]
    block, [RuntimeError] with that prefix is the only class it has.
    Exceptions are the instances of [Exception], the ones the clause
    [except Exception] names. *)
Theorem convert_wraps_inference_failure
    (predict : string -> spec_float -> spec_float -> gmap (list string) Os.node ->
               result PrettyMidi.PrettyMIDI)
    (audio_path : string) (onset frame : spec_float) (w : world) :
  Os.path_exists (w_fs w) audio_path = true ->
  (forall e,
     predict audio_path onset frame (w_fs w) = Raise e ->
     is_Exception (exn_class_of e) = true ->
     fst (AudioToMidi.convert_audio_to_midi predict audio_path onset frame w) =
       Raise (Exn RuntimeError ("Error during audio-to-MIDI conversion: " +:+ exn_str e)))
  /\
  (forall e',
     fst (AudioToMidi.convert_audio_to_midi predict audio_path onset frame w) = Raise e' ->
     is_Exception (exn_class_of e') = true ->
     exists e0, e' = Exn RuntimeError ("Error during audio-to-MIDI conversion: " +:+ exn_str e0)).
Proof.
  intros Hex. rewrite convert_run, Hex. split.
  - intros e He HE. rewrite He, HE. reflexivity.
  - intros e'.
    destruct (predict audio_path onset frame (w_fs w)) as [midi_data|e]; simpl.
    + destruct (processed midi_data) as [out|e]; simpl; [discriminate|].
      intros [= <-] _. exists e. reflexivity.
    + destruct (is_Exception (exn_class_of e)) eqn:HE; intros [= <-]; simpl.
      * intros _. exists e. reflexivity.
      * rewrite HE. discriminate.
Qed.

Lemma convert_wraps_inference_failure_witness :
  fst (AudioToMidi.convert_audio_to_midi Fixture.predict "/tmp"
         (Fixture.dyadic 1 (-1)) (Fixture.dyadic 1 (-2)) Fixture.w) =
    Raise (Exn RuntimeError "Error during audio-to-MIDI conversion: cannot decode audio").
Proof.
  apply (proj1 (convert_wraps_inference_failure Fixture.predict "/tmp"
                  (Fixture.dyadic 1 (-1)) (Fixture.dyadic 1 (-2)) Fixture.w eq_refl)
           (Exn (OtherException "NoBackendError") "cannot decode audio")).
  - vm_compute. reflexivity.
  - reflexivity.
Defined.

(** C10. A path that exists without being a regular file, a directory for
    one, passes the check of existence: the converter does not raise the
    validation error, the model is called, and a failure from there on
    reaches the caller as the [RuntimeError] of the inference stage. *)
Theorem convert_directory_passes_check
    (predict : string -> spec_float -> spec_float -> gmap (list string) Os.node ->
               result PrettyMidi.PrettyMIDI)
    (audio_path : string) (onset frame : spec_float) (w : world) :
  Os.path_exists (w_fs w) audio_path = true ->
  isfile (w_fs w) audio_path = false ->
  (forall e,
     fst (AudioToMidi.convert_audio_to_midi predict audio_path onset frame w) = Raise e ->
     exn_class_of e <> ValueError)
  /\ snd (AudioToMidi.convert_audio_to_midi predict audio_path onset frame w) =
       called audio_path onset frame w
  /\ (forall e,
        predict audio_path onset frame (w_fs w) = Raise e ->
        is_Exception (exn_class_of e) = true ->
        fst (AudioToMidi.convert_audio_to_midi predict audio_path onset frame w) =
          Raise (conversion_error e)).
Proof.
  intros Hex _. rewrite convert_run, Hex.
  destruct (predict audio_path onset frame (w_fs w)) as [midi_data|e0]; simpl.
  - destruct (processed midi_data) as [out|e0]; simpl.
    + repeat split; try discriminate.
    + repeat split; try discriminate. intros e [= <-]. discriminate.
  - repeat split.
    + intros e [= <-].
      destruct (is_Exception (exn_class_of e0)) eqn:HE; simpl; [discriminate|].
      intros Hc. rewrite Hc in HE. discriminate.
    + intros e [= <-] HE. rewrite HE. reflexivity.
Qed.

Lemma convert_directory_passes_check_witness :
  Os.path_exists Fixture.fs "/tmp" = true /\
  isfile Fixture.fs "/tmp" = false /\
  snd (AudioToMidi.convert_audio_to_midi Fixture.predict "/tmp"
         (Fixture.dyadic 1 (-1)) (Fixture.dyadic 1 (-2)) Fixture.w) =
    called "/tmp" (Fixture.dyadic 1 (-1)) (Fixture.dyadic 1 (-2)) Fixture.w.
Proof.
  split; [reflexivity|]. split; [reflexivity|].
  exact (proj1 (proj2 (convert_directory_passes_check Fixture.predict "/tmp"
           (Fixture.dyadic 1 (-1)) (Fixture.dyadic 1 (-2)) Fixture.w eq_refl eq_refl))).
Defined.

(** ** One run of the writer, stage by stage *)

Lemma save_midi_run rejects writeFile midi_data file_name output_path tempo w :
  midi_data <> [] ->
  SaveMidi.save_midi rejects writeFile midi_data file_name output_path tempo w =
  persist writeFile (SaveMidi.build rejects midi_data tempo) file_name output_path w.
Proof.
  intros Hne. destruct midi_data as [|note rest]; [congruence|].
  unfold SaveMidi.save_midi, persist, bind, lift.
  destruct (SaveMidi.build rejects (note :: rest) tempo) as [midi|e]; [|reflexivity].
  unfold os_makedirs, bind, get_fs, lift, put_fs. simpl.
  destruct (Os.makedirs (w_fs w) output_path) as [fs1|e]; [|reflexivity]. simpl.
  unfold try_except, SaveMidi.write_midi, open_wb, bind, get_fs, lift, put_fs. simpl.
  pose proof (open_wb_Exception fs1 (Os.path_join output_path file_name)) as HE.
  destruct (Os.open_wb fs1 (Os.path_join output_path file_name)) as [[f fs2]|e]; simpl in *.
  - unfold file_write, bind, get_fs, put_fs, ret, raise. simpl.
    destruct (snd (writeFile midi)) as [e|]; simpl; [|reflexivity].
    destruct (is_Exception (exn_class_of e)); reflexivity.
  - rewrite HE. reflexivity.
Qed.

(** C3. On the empty note list the writer raises [ValueError] and leaves
    the world as it was: no directory has been created, no file written. *)
Theorem save_midi_empty
    (rejects : MidiUtil.MIDIFile -> MidiUtil.event -> option exn)
    (writeFile : MidiUtil.MIDIFile -> list byte * option exn)
    (file_name output_path : string) (tempo : Z) (w : world) :
  SaveMidi.save_midi rejects writeFile [] file_name output_path tempo w =
    (Raise (Exn ValueError "No MIDI data provided"), w).
Proof. reflexivity. Qed.

(** C7, within the [try] block. The [try] block of the writer holds the opening
    of the destination file and [writeFile] alone: an exception of either is
    raised again as [RuntimeError] with the message
    ["Error saving MIDI file: "] followed by the original message. An
    exception of the assembly of the track or of the creation of the
    directory reaches the caller as it is. *)
Theorem save_midi_failures
    (rejects : MidiUtil.MIDIFile -> MidiUtil.event -> option exn)
    (writeFile : MidiUtil.MIDIFile -> list byte * option exn)
    (midi_data : list (list Py.pyval)) (file_name output_path : string)
    (tempo : Z) (w : world) :
  midi_data <> [] ->
  fst (SaveMidi.save_midi rejects writeFile midi_data file_name output_path tempo w) =
  match SaveMidi.build rejects midi_data tempo with
  | Raise e => Raise e
  | Ok midi =>
      match Os.makedirs (w_fs w) output_path with
      | Raise e => Raise e
      | Ok fs1 =>
          match Os.open_wb fs1 (Os.path_join output_path file_name) with
          | Raise e => Raise (Exn RuntimeError ("Error saving MIDI file: " +:+ exn_str e))
          | Ok _ =>
              match snd (writeFile midi) with
              | Some e =>
                  if is_Exception (exn_class_of e)
                  then Raise (Exn RuntimeError ("Error saving MIDI file: " +:+ exn_str e))
                  else Raise e
              | None => Ok tt
              end
          end
      end
  end.
Proof.
  intros Hne. rewrite save_midi_run by exact Hne. unfold persist.
  destruct (SaveMidi.build rejects midi_data tempo) as [midi|e]; [|reflexivity].
  destruct (Os.makedirs (w_fs w) output_path) as [fs1|e]; [|reflexivity].
  destruct (Os.open_wb fs1 (Os.path_join output_path file_name)) as [[f fs2]|e];
    [|reflexivity].
  simpl. destruct (snd (writeFile midi)) as [e|]; [|reflexivity].
  destruct (is_Exception (exn_class_of e)); reflexivity.
Qed.

Lemma save_midi_failures_witness :
  fst (SaveMidi.save_midi Fixture.rejects Fixture.writeFile_failing
         [[Py.PyInt 60; Py.PyFloat (Fixture.dyadic 0 0); Py.PyFloat (Fixture.dyadic 1 0);
           Py.PyInt 100]]
         "t.mid" "/tmp/out" 120 Fixture.w) =
    Raise (Exn RuntimeError "Error saving MIDI file: pop from empty list").
Proof.
  rewrite (save_midi_failures Fixture.rejects Fixture.writeFile_failing
             [[Py.PyInt 60; Py.PyFloat (Fixture.dyadic 0 0);
               Py.PyFloat (Fixture.dyadic 1 0); Py.PyInt 100]]
             "t.mid" "/tmp/out" 120 Fixture.w); [|discriminate].
  vm_compute. reflexivity.
Defined.

(** C7, read over the whole of [save_midi], does not hold. With a regular
    file where the output directory should be, [os.makedirs] raises
    [FileExistsError], and with a note whose start is [None] the subtraction
    raises [TypeError]: both reach the caller as they are, not as
    [RuntimeError]. *)
Lemma save_midi_unwrapped_failures :
  fst (SaveMidi.save_midi Fixture.rejects Fixture.writeFile
         [[Py.PyInt 60; Py.PyFloat (Fixture.dyadic 0 0); Py.PyFloat (Fixture.dyadic 1 0);
           Py.PyInt 100]]
         "t.mid" "/tmp/out" 120 Fixture.taken) =
    Raise (Exn FileExistsError "[Errno 17] File exists: '/tmp/out'")
  /\
  fst (SaveMidi.save_midi Fixture.rejects Fixture.writeFile
         [[Py.PyInt 60; Py.PyNone; Py.PyFloat (Fixture.dyadic 1 0); Py.PyInt 100]]
         "t.mid" "/tmp/out" 120 Fixture.w) =
    Raise (Exn TypeError "unsupported operand type(s) for -: 'float' and 'NoneType'")
  /\ FileExistsError <> RuntimeError /\ TypeError <> RuntimeError.
Proof. repeat split; try discriminate; vm_compute; reflexivity. Qed.

(** ** The loop of the writer *)

Lemma add_note_skip rejects midi note :
  has_four_fields note = false -> SaveMidi.add_note rejects midi note = Ok midi.
Proof.
  unfold has_four_fields, SaveMidi.add_note. intros ->. reflexivity.
Qed.

Lemma add_note_four rejects midi note midi' :
  has_four_fields note = true ->
  SaveMidi.add_note rejects midi note = Ok midi' ->
  exists ev, added_for note ev /\
    MidiUtil.events midi' = (MidiUtil.events midi ++ [ev])%list.
Proof.
  unfold has_four_fields, SaveMidi.add_note. intros ->. simpl.
  destruct note as [|pitch [|start_time [|end_time [|velocity [|? ?]]]]]; try discriminate.
  destruct (Py.sub end_time start_time) as [duration|] eqn:Hd; [simpl|discriminate].
  destruct (Py.int pitch) as [p|] eqn:Hp; [simpl|discriminate].
  destruct (Py.int velocity) as [v|] eqn:Hv; [simpl|discriminate].
  unfold MidiUtil.addNote, MidiUtil.add.
  destruct (rejects midi _); [discriminate|]. intros [= <-]. simpl.
  eexists. split; [|reflexivity].
  exists pitch, start_time, end_time, velocity, p, v, duration. auto.
Qed.

Lemma for_notes_filter rejects midi_data midi :
  SaveMidi.for_notes rejects midi_data midi =
  SaveMidi.for_notes rejects (List.filter has_four_fields midi_data) midi.
Proof.
  revert midi. induction midi_data as [|note rest IH]; intros midi; [reflexivity|].
  simpl. destruct (has_four_fields note) eqn:H4.
  - simpl. destruct (SaveMidi.add_note rejects midi note); simpl; auto.
  - rewrite add_note_skip by exact H4. simpl. apply IH.
Qed.

Lemma build_filter rejects midi_data tempo :
  SaveMidi.build rejects midi_data tempo =
  SaveMidi.build rejects (List.filter has_four_fields midi_data) tempo.
Proof.
  unfold SaveMidi.build.
  destruct (MidiUtil.addTrackName rejects _ _ _ _) as [m0|]; [simpl|reflexivity].
  destruct (MidiUtil.addTempo rejects m0 _ _ _) as [m1|]; [simpl|reflexivity].
  apply for_notes_filter.
Qed.

Lemma for_notes_events rejects midi_data midi midi' :
  SaveMidi.for_notes rejects midi_data midi = Ok midi' ->
  exists evs,
    MidiUtil.events midi' = (MidiUtil.events midi ++ evs)%list /\
    Forall2 added_for (List.filter has_four_fields midi_data) evs.
Proof.
  revert midi. induction midi_data as [|note rest IH]; intros midi; simpl.
  - intros [= <-]. exists []. rewrite app_nil_r. split; [reflexivity|constructor].
  - destruct (SaveMidi.add_note rejects midi note) as [m1|] eqn:Hadd; [simpl|discriminate].
    intros Hrest. destruct (IH _ Hrest) as (evs & Hev & HF).
    destruct (has_four_fields note) eqn:H4.
    + destruct (add_note_four _ _ _ _ H4 Hadd) as (ev & Had & Hm1).
      exists (ev :: evs). rewrite Hev, Hm1, <- app_assoc. split; [reflexivity|].
      constructor; assumption.
    + rewrite add_note_skip in Hadd by exact H4. injection Hadd as <-.
      exists evs. split; assumption.
Qed.

Lemma build_events rejects midi_data tempo midi :
  SaveMidi.build rejects midi_data tempo = Ok midi ->
  exists evs,
    MidiUtil.events midi =
      MidiUtil.TrackName 0 (Py.PyInt 0) "Track 1"
        :: MidiUtil.Tempo 0 (Py.PyInt 0) tempo :: evs /\
    Forall2 added_for (List.filter has_four_fields midi_data) evs.
Proof.
  unfold SaveMidi.build, MidiUtil.addTrackName, MidiUtil.addTempo, MidiUtil.add.
  destruct (rejects _ _); [discriminate|]. simpl.
  destruct (rejects _ _); [discriminate|]. simpl.
  intros H. destruct (for_notes_events _ _ _ _ H) as (evs & Hev & HF).
  exists evs. split; [exact Hev|exact HF].
Qed.

Lemma added_for_note note ev : added_for note ev -> MidiUtil.is_note ev = true.
Proof. intros (?&?&?&?&?&?&?&_&_&_&_&->). reflexivity. Qed.

Lemma added_for_range note ev : added_for note ev -> in_midi_range ev.
Proof. intros (?&?&?&?&?&?&?&_&_&_&_&->). simpl. lia. Qed.

Lemma filter_all_notes (notes evs : list MidiUtil.event) :
  Forall (fun ev => MidiUtil.is_note ev = true) evs ->
  List.filter MidiUtil.is_note evs = evs.
Proof.
  induction 1 as [|ev evs Hev _ IH]; simpl; [reflexivity|].
  rewrite Hev, IH. reflexivity.
Qed.

(** C4. When the loop over the notes is over, the note events of the track
    are, in order, those of the entries of four fields, each with the pitch
    [max(0, min(127, int(pitch)))] and the volume
    [max(0, min(127, int(velocity)))]; every one of them has its pitch and
    its volume within 0 and 127. *)
Theorem save_midi_clamps
    (rejects : MidiUtil.MIDIFile -> MidiUtil.event -> option exn)
    (midi_data : list (list Py.pyval)) (tempo : Z) (midi : MidiUtil.MIDIFile) :
  SaveMidi.build rejects midi_data tempo = Ok midi ->
  Forall2 added_for (List.filter has_four_fields midi_data)
    (List.filter MidiUtil.is_note (MidiUtil.events midi))
  /\ Forall in_midi_range (MidiUtil.events midi).
Proof.
  intros H. destruct (build_events _ _ _ _ H) as (evs & -> & HF).
  assert (Hn : Forall (fun ev => MidiUtil.is_note ev = true) evs).
  { clear -HF. induction HF; constructor; eauto using added_for_note. }
  assert (Hr : Forall in_midi_range evs).
  { clear -HF. induction HF; constructor; eauto using added_for_range. }
  simpl. rewrite (filter_all_notes evs evs Hn). split; [exact HF|].
  repeat constructor. exact Hr.
Qed.

Lemma save_midi_clamps_witness :
  SaveMidi.build Fixture.rejects Fixture.loud 120 = Ok Fixture.loud_track
  /\ Forall in_midi_range
       [MidiUtil.TrackName 0 (Py.PyInt 0) "Track 1";
        MidiUtil.Tempo 0 (Py.PyInt 0) 120;
        MidiUtil.NoteEvent 0 0 127 (Py.PyFloat (Fixture.dyadic 0 0))
          (Py.PyFloat (Fixture.dyadic 1 0)) 0].
Proof.
  split; [vm_compute; reflexivity|].
  apply (proj2 (save_midi_clamps Fixture.rejects Fixture.loud 120 Fixture.loud_track
                  ltac:(vm_compute; reflexivity))).
Defined.

(** C5. An entry that does not have four fields is passed over: on a list
    that is not empty the writer does what it does on the entries of four
    fields alone, with the same result and the same files; and when no
    entry has four fields, the track that is written holds its name and its
    tempo and no note. *)
Theorem save_midi_skips_malformed
    (rejects : MidiUtil.MIDIFile -> MidiUtil.event -> option exn)
    (writeFile : MidiUtil.MIDIFile -> list byte * option exn)
    (midi_data : list (list Py.pyval)) (file_name output_path : string)
    (tempo : Z) (w : world) :
  midi_data <> [] ->
  SaveMidi.save_midi rejects writeFile midi_data file_name output_path tempo w =
    persist writeFile
      (SaveMidi.build rejects (List.filter has_four_fields midi_data) tempo)
      file_name output_path w
  /\ (List.filter has_four_fields midi_data = [] ->
      forall midi, SaveMidi.build rejects midi_data tempo = Ok midi ->
        MidiUtil.events midi =
          [MidiUtil.TrackName 0 (Py.PyInt 0) "Track 1"; MidiUtil.Tempo 0 (Py.PyInt 0) tempo]).
Proof.
  intros Hne. split.
  - rewrite save_midi_run by exact Hne. rewrite build_filter. reflexivity.
  - intros Hnone midi H. destruct (build_events _ _ _ _ H) as (evs & -> & HF).
    rewrite Hnone in HF. inversion HF. reflexivity.
Qed.

Lemma save_midi_skips_malformed_witness :
  SaveMidi.save_midi Fixture.rejects Fixture.writeFile
    [[Py.PyInt 60; Py.PyFloat (Fixture.dyadic 0 0); Py.PyFloat (Fixture.dyadic 1 0)]]
    "t.mid" "/tmp/out" 120 Fixture.w =
  (Ok tt,
   World (<[ ["tmp"; "out"; "t.mid"] := Os.File [x4d; x54; x68; x64] ]>
            (<[ ["tmp"; "out"] := Os.Dir ]> Fixture.fs)) []).
Proof.
  rewrite (proj1 (save_midi_skips_malformed Fixture.rejects Fixture.writeFile
             [[Py.PyInt 60; Py.PyFloat (Fixture.dyadic 0 0);
               Py.PyFloat (Fixture.dyadic 1 0)]]
             "t.mid" "/tmp/out" 120 Fixture.w ltac:(discriminate))).
  vm_compute. reflexivity.
Defined.

(** ** The order of the floats *)

Lemma SFcompare_opp x y : SFcompare y x = option_map CompOpp (SFcompare x y).
Proof.
  destruct x as [sx|sx| |sx mx ex], y as [sy|sy| |sy my ey]; simpl;
    try reflexivity; try (destruct sx; reflexivity); try (destruct sy; reflexivity);
    try (destruct sx, sy; reflexivity).
  change (Pos.compare_cont Eq my mx) with (Pos.compare my mx).
  change (Pos.compare_cont Eq mx my) with (Pos.compare mx my).
  rewrite (Z.compare_antisym ex ey), (Pos.compare_antisym mx my).
  destruct sx, sy; simpl; try reflexivity;
    destruct (ex ?= ey); simpl; try reflexivity;
    destruct (mx ?= my)%positive; reflexivity.
Qed.

Ltac compare_cases :=
  repeat match goal with
    | |- context [(?a ?= ?b)%Z] => destruct (Z.compare_spec a b); subst; simpl
    | |- context [(?a ?= ?b)%positive] => destruct (Pos.compare_spec a b); subst; simpl
    end.

Lemma SFcompare_trans x y z c1 c2 :
  SFcompare x y = Some c1 -> SFcompare y z = Some c2 ->
  c1 <> Gt -> c2 <> Gt ->
  SFcompare x z = Some (below c1 c2).
Proof.
  destruct x as [sx|sx| |sx mx ex], y as [sy|sy| |sy my ey], z as [sz|sz| |sz mz ez];
    simpl; try discriminate;
    try destruct sx; try destruct sy; try destruct sz; simpl;
    intros [= <-] [= <-]; try congruence; try reflexivity.
  all: change (Pos.compare_cont Eq ?a ?b) with (Pos.compare a b).
  all: compare_cases; intros; try congruence; try reflexivity; try lia.
Qed.

Lemma SFcompare_not_nan x y :
  Py.is_nan x = false -> Py.is_nan y = false -> exists c, SFcompare x y = Some c.
Proof.
  destruct x, y; simpl; try discriminate; intros _ _; eexists; reflexivity.
Qed.

Lemma SFltb_SFleb x y : SFltb x y = true -> SFleb x y = true.
Proof. unfold SFltb, SFleb. destruct (SFcompare x y) as [[]|]; congruence. Qed.

Lemma SFleb_total x y :
  Py.is_nan x = false -> Py.is_nan y = false -> SFltb x y = false -> SFleb y x = true.
Proof.
  intros Hx Hy. unfold SFltb, SFleb. rewrite (SFcompare_opp x y).
  destruct (SFcompare_not_nan x y Hx Hy) as [c ->]. destruct c; simpl; congruence.
Qed.

Lemma SFleb_trans x y z : SFleb x y = true -> SFleb y z = true -> SFleb x z = true.
Proof.
  unfold SFleb. intros H1 H2.
  destruct (SFcompare x y) as [c1|] eqn:E1; [|discriminate].
  destruct (SFcompare y z) as [c2|] eqn:E2; [|discriminate].
  rewrite (SFcompare_trans x y z c1 c2 E1 E2) by (destruct c1, c2; congruence).
  destruct c1, c2; simpl; congruence.
Qed.

Lemma SFltb_SFleb_trans x y z : SFltb x y = true -> SFleb y z = true -> SFltb x z = true.
Proof.
  unfold SFltb, SFleb. intros H1 H2.
  destruct (SFcompare x y) as [c1|] eqn:E1; [|discriminate].
  destruct (SFcompare y z) as [c2|] eqn:E2; [|discriminate].
  rewrite (SFcompare_trans x y z c1 c2 E1 E2) by (destruct c1, c2; congruence).
  destruct c1, c2; simpl; congruence.
Qed.

(** A float above one that equals [k] does not equal [k]. *)
Lemma SFeqb_SFltb x z k : SFeqb x k = true -> SFltb x z = true -> SFeqb z k = false.
Proof.
  unfold SFeqb, SFltb. intros H1 H2.
  destruct (SFcompare x k) as [[]|] eqn:E1; try discriminate.
  destruct (SFcompare x z) as [[]|] eqn:E2; try discriminate.
  pose proof (SFcompare_opp x k) as E3. rewrite E1 in E3. simpl in E3.
  pose proof (SFcompare_trans k x z Eq Lt E3 E2) as E4. simpl in E4.
  rewrite (SFcompare_opp k z), E4 by congruence. reflexivity.
Qed.

Lemma SFeqb_refl s : Py.is_nan s = false -> SFeqb s s = true.
Proof.
  unfold SFeqb. destruct s as [b|b| |b m e]; simpl; try discriminate; intros _;
    try (destruct b; reflexivity).
  change (Pos.compare_cont Eq m m) with (Pos.compare m m).
  rewrite Z.compare_refl, Pos.compare_refl. destruct b; reflexivity.
Qed.

Lemma SFeqb_sym a b : SFeqb a b = SFeqb b a.
Proof.
  unfold SFeqb. rewrite (SFcompare_opp b a).
  destruct (SFcompare b a) as [[]|]; reflexivity.
Qed.

Lemma SFleb_antisym a b : SFleb a b = true -> SFleb b a = true -> SFeqb a b = true.
Proof.
  unfold SFleb, SFeqb. rewrite (SFcompare_opp a b).
  destruct (SFcompare a b) as [[]|]; simpl; congruence.
Qed.

(** ** [list.sort]: a permutation, sorted and stable on float keys *)

Section SortFacts.
Context {A : Type}.
Implicit Types (x y z : Py.pyval * A) (acc l r : list (Py.pyval * A)).

Lemma insert_Permutation x acc r : Py.insert x acc = Ok r -> r ≡ₚ x :: acc.
Proof.
  revert r. induction acc as [|y acc IH]; intros r; simpl.
  - intros [= <-]. reflexivity.
  - destruct (Py.lt (fst x) (fst y)) as [[|]|]; simpl; try discriminate.
    + intros [= <-]. reflexivity.
    + destruct (Py.insert x acc) as [r'|]; simpl; [|discriminate].
      intros [= <-]. rewrite (IH r' eq_refl). apply Permutation_swap.
Qed.

Lemma sort_from_Permutation l acc r : Py.sort_from acc l = Ok r -> r ≡ₚ acc ++ l.
Proof.
  revert acc r. induction l as [|x l IH]; intros acc r; simpl.
  - intros [= <-]. rewrite app_nil_r. reflexivity.
  - destruct (Py.insert x acc) as [acc'|] eqn:Hi; simpl; [|discriminate].
    intros H. rewrite (IH _ _ H), (insert_Permutation _ _ _ Hi).
    simpl. apply Permutation_middle.
Qed.

Lemma keyed_spec (key : A -> result Py.pyval) (xs : list A) ks :
  Py.keyed key xs = Ok ks ->
  map snd ks = xs /\ Forall (fun kx => key (snd kx) = Ok (fst kx)) ks.
Proof.
  revert ks. induction xs as [|a xs IH]; intros ks; simpl.
  - intros [= <-]. split; [reflexivity|constructor].
  - destruct (key a) as [k|] eqn:Hk; simpl; [|discriminate].
    destruct (Py.keyed key xs) as [ks'|]; simpl; [|discriminate].
    intros [= <-]. destruct (IH ks' eq_refl) as [Hm HF].
    split; [simpl; congruence|]. constructor; [exact Hk|exact HF].
Qed.

Lemma insert_float_keys x acc :
  (exists s, fst x = Py.PyFloat s) ->
  Forall (fun y => exists s, fst y = Py.PyFloat s) acc ->
  exists r, Py.insert x acc = Ok r.
Proof.
  intros [sx Hx]. induction 1 as [|y acc [sy Hy] _ [r' IH]]; simpl; [eauto|].
  rewrite Hx, Hy. simpl. destruct (SFltb sx sy); simpl; [eauto|].
  rewrite IH. simpl. eauto.
Qed.

Lemma sort_from_float_keys l acc :
  Forall (fun y => exists s, fst y = Py.PyFloat s) l ->
  Forall (fun y => exists s, fst y = Py.PyFloat s) acc ->
  exists r, Py.sort_from acc l = Ok r.
Proof.
  intros Hl. revert acc. induction Hl as [|x l Hx _ IH]; intros acc Hacc; simpl; [eauto|].
  destruct (insert_float_keys x acc Hx Hacc) as [acc' Hi]. rewrite Hi. simpl.
  apply IH. rewrite (insert_Permutation _ _ _ Hi). constructor; assumption.
Qed.

Lemma key_le_trans x y z : key_le x y -> key_le y z -> key_le x z.
Proof.
  intros (sx & sy & Hx & Hy & Hxy) (sy' & sz & Hy' & Hz & Hyz).
  rewrite Hy in Hy'. injection Hy' as <-.
  exists sx, sz. eauto using SFleb_trans.
Qed.

Lemma key_at_above x z k :
  key_at k x = true ->
  (exists sx sz, fst x = Py.PyFloat sx /\ fst z = Py.PyFloat sz /\ SFltb sx sz = true) ->
  key_at k z = false.
Proof.
  intros Hk (sx & sz & Hx & Hz & Hlt). cbv [key_at] in *.
  rewrite Hx in Hk. rewrite Hz. eauto using SFeqb_SFltb.
Qed.

Lemma insert_sorted_stable x acc r :
  float_key x -> Forall float_key acc -> StronglySorted key_le acc ->
  Py.insert x acc = Ok r ->
  StronglySorted key_le r /\
  forall k, List.filter (key_at k) r =
            (List.filter (key_at k) acc ++ List.filter (key_at k) [x])%list.
Proof.
  intros (sx & Hx & Hnx) Hacc Hs. revert r.
  induction Hs as [|y acc Hs IH Hy]; intros r; simpl.
  - intros [= <-]. split; [repeat constructor|reflexivity].
  - inversion Hacc as [|? ? (sy & Hsy & Hny) Hacc']; subst.
    rewrite Hx, Hsy. simpl. destruct (SFltb sx sy) eqn:Hlt; simpl.
    + intros [= <-].
      assert (Hxy : key_le x y) by (exists sx, sy; eauto using SFltb_SFleb).
      split.
      * constructor; [constructor; assumption|].
        constructor; [exact Hxy|].
        eapply Forall_impl; [exact Hy|]. intros z Hz. eapply key_le_trans; eauto.
      * intros k. simpl.
        destruct (key_at k x) eqn:Hkx; [|rewrite app_nil_r; reflexivity].
        assert (Hnone : List.filter (key_at k) (y :: acc) = []).
        { assert (Hall : Forall (fun z => key_at k z = false) (y :: acc)).
          { constructor.
            - eapply key_at_above; [exact Hkx|]. exists sx, sy. auto.
            - eapply Forall_impl; [exact Hy|]. intros z (sy' & sz & Hy' & Hz & Hyz).
              rewrite Hsy in Hy'. injection Hy' as <-.
              eapply key_at_above; [exact Hkx|]. exists sx, sz.
              eauto using SFltb_SFleb_trans. }
          clear -Hall. induction Hall as [|z zs Hz _ IHz]; simpl; [reflexivity|].
          rewrite Hz. exact IHz. }
        simpl in Hnone. rewrite Hnone. reflexivity.
    + destruct (Py.insert x acc) as [r'|] eqn:Hi; simpl; [|discriminate].
      intros [= <-]. destruct (IH Hacc' r' eq_refl) as [Hs' Hst]. split.
      * constructor; [exact Hs'|].
        rewrite (insert_Permutation _ _ _ Hi). constructor; [|exact Hy].
        exists sy, sx. eauto using SFleb_total.
      * intros k. simpl. rewrite Hst.
        destruct (key_at k y); simpl; reflexivity.
Qed.

Lemma sort_from_sorted_stable l acc r :
  Forall float_key l -> Forall float_key acc -> StronglySorted key_le acc ->
  Py.sort_from acc l = Ok r ->
  StronglySorted key_le r /\
  forall k, List.filter (key_at k) r =
            (List.filter (key_at k) acc ++ List.filter (key_at k) l)%list.
Proof.
  intros Hl. revert acc r.
  induction Hl as [|x l Hx Hl IH]; intros acc r Hacc Hs; simpl.
  - intros [= <-]. split; [exact Hs|]. intros k. rewrite app_nil_r. reflexivity.
  - destruct (Py.insert x acc) as [acc'|] eqn:Hi; simpl; [|discriminate].
    intros H. destruct (insert_sorted_stable _ _ _ Hx Hacc Hs Hi) as [Hs' Hst].
    assert (Hacc' : Forall float_key acc').
    { rewrite (insert_Permutation _ _ _ Hi). constructor; assumption. }
    destruct (IH _ _ Hacc' Hs' H) as [Hr Hrk]. split; [exact Hr|].
    intros k. rewrite Hrk, Hst, <- app_assoc. simpl.
    destruct (key_at k x); reflexivity.
Qed.
Lemma key_at_own x : float_key x -> exists s, fst x = Py.PyFloat s /\ key_at s x = true.
Proof.
  intros (s & Hs & Hn). exists s. split; [exact Hs|].
  cbv [key_at]. rewrite Hs. apply SFeqb_refl, Hn.
Qed.

Lemma key_le_antisym x y s :
  fst x = Py.PyFloat s -> key_le x y -> key_le y x -> key_at s y = true.
Proof.
  intros Hs (sx & sy & Hx & Hy & Hxy) (sy' & sx' & Hy' & Hx' & Hyx).
  rewrite Hx in Hs, Hx'. injection Hs as <-. injection Hx' as <-.
  rewrite Hy in Hy'. injection Hy' as <-.
  cbv [key_at]. rewrite Hy. apply SFleb_antisym; assumption.
Qed.

Lemma stable_sorted_unique l1 l2 :
  Forall float_key l1 -> Forall float_key l2 ->
  StronglySorted key_le l1 -> StronglySorted key_le l2 ->
  (forall k, List.filter (key_at k) l1 = List.filter (key_at k) l2) ->
  l1 = l2.
Proof.
  revert l2. induction l1 as [|x l1 IH]; intros l2 F1 F2 S1 S2 H.
  - destruct l2 as [|y l2]; [reflexivity|]. exfalso.
    inversion F2 as [|? ? Hy _]; subst.
    destruct (key_at_own y Hy) as (sy & _ & Hk).
    specialize (H sy). simpl in H. rewrite Hk in H. discriminate.
  - inversion F1 as [|? ? Hx F1']; subst.
    destruct (key_at_own x Hx) as (sx & Hsx & Hkx).
    destruct l2 as [|y l2].
    { specialize (H sx). simpl in H. rewrite Hkx in H. discriminate. }
    inversion F2 as [|? ? Hy F2']; subst.
    destruct (key_at_own y Hy) as (sy & Hsy & Hky).
    inversion S1 as [|? ? S1' Hx1]; subst. inversion S2 as [|? ? S2' Hy2]; subst.
    assert (Hxy : x = y).
    { pose proof (H sx) as Hsxk. simpl in Hsxk. rewrite Hkx in Hsxk.
      destruct (key_at sx y) eqn:E; [congruence|]. exfalso.
      assert (Hin : In x l2).
      { eapply proj1, filter_In. rewrite <- Hsxk. left. reflexivity. }
      assert (Hyx : key_le y x).
      { rewrite Forall_forall in Hy2. apply Hy2, list_elem_of_In, Hin. }
      pose proof (H sy) as Hsyk. simpl in Hsyk. rewrite Hky in Hsyk.
      assert (Hkyx : key_at sy x = false).
      { cbv [key_at] in E |- *. rewrite Hsx. rewrite Hsy in E.
        rewrite SFeqb_sym. exact E. }
      rewrite Hkyx in Hsyk.
      assert (Hin' : In y l1).
      { eapply proj1, filter_In. rewrite Hsyk. left. reflexivity. }
      assert (Hxy : key_le x y).
      { rewrite Forall_forall in Hx1. apply Hx1, list_elem_of_In, Hin'. }
      rewrite (key_le_antisym x y sx Hsx Hxy Hyx) in E. discriminate. }
    subst y. f_equal. apply IH; auto.
    intros k. specialize (H k). simpl in H.
    destruct (key_at k x); [injection H; auto|exact H].
Qed.

(** The list [list.sort] returns is the only one that is sorted and keeps
    the entries of each key in their order: every stable sort returns it. *)
Lemma sort_from_unique l r r' :
  Forall float_key l ->
  Py.sort_from [] l = Ok r ->
  r' ≡ₚ l -> StronglySorted key_le r' ->
  (forall k, List.filter (key_at k) r' = List.filter (key_at k) l) ->
  r' = r.
Proof.
  intros Hl Hr Hp Hs Hst.
  destruct (sort_from_sorted_stable l [] r Hl) as [Hs' Hst']; auto; [constructor|].
  apply stable_sorted_unique; auto.
  - rewrite Hp. exact Hl.
  - rewrite (sort_from_Permutation _ _ _ Hr). exact Hl.
  - intros k. rewrite Hst, Hst'. reflexivity.
Qed.
End SortFacts.

Lemma sort_Permutation {A} (key : A -> result Py.pyval) (xs out : list A) :
  Py.sort key xs = Ok out -> out ≡ₚ xs.
Proof.
  unfold Py.sort.
  destruct (Py.keyed key xs) as [ks|] eqn:Hk; simpl; [|discriminate].
  destruct (Py.sort_from [] ks) as [r|] eqn:Hr; simpl; [|discriminate].
  intros [= <-]. destruct (keyed_spec _ _ _ Hk) as [<- _].
  apply Permutation_map. exact (sort_from_Permutation _ _ _ Hr).
Qed.

(** ** The flattening of the model's output *)

Lemma note_tuple_shape n t :
  AudioToMidi.note_tuple n = Ok t ->
  exists p s e v,
    t = [Py.PyInt p; Py.PyFloat s; Py.PyFloat e; Py.PyInt v] /\
    Py.int (PrettyMidi.pitch n) = Ok p /\
    Py.float (PrettyMidi.start n) = Ok s /\
    Py.float (PrettyMidi.end_ n) = Ok e /\
    Py.int (PrettyMidi.velocity n) = Ok v.
Proof.
  unfold AudioToMidi.note_tuple.
  destruct (Py.int (PrettyMidi.pitch n)) as [p|]; simpl; [|discriminate].
  destruct (Py.float (PrettyMidi.start n)) as [s|]; simpl; [|discriminate].
  destruct (Py.float (PrettyMidi.end_ n)) as [e|]; simpl; [|discriminate].
  destruct (Py.int (PrettyMidi.velocity n)) as [v|]; simpl; [|discriminate].
  intros [= <-]. exists p, s, e, v. auto.
Qed.

Lemma for_notes_spec ns acc out :
  AudioToMidi.for_notes ns acc = Ok out ->
  exists ts, out = (acc ++ ts)%list /\
    Forall2 (fun n t => AudioToMidi.note_tuple n = Ok t) ns ts.
Proof.
  revert acc. induction ns as [|n ns IH]; intros acc; simpl.
  - intros [= <-]. exists []. rewrite app_nil_r. split; [reflexivity|constructor].
  - destruct (AudioToMidi.note_tuple n) as [t|] eqn:Ht; simpl; [|discriminate].
    intros H. destruct (IH _ H) as (ts & -> & HF).
    exists (t :: ts). rewrite <- app_assoc. split; [reflexivity|].
    constructor; assumption.
Qed.

Lemma for_instruments_spec ins acc out :
  AudioToMidi.for_instruments ins acc = Ok out ->
  exists ts, out = (acc ++ ts)%list /\
    Forall2 (fun n t => AudioToMidi.note_tuple n = Ok t)
      (concat (map PrettyMidi.notes ins)) ts.
Proof.
  revert acc. induction ins as [|i ins IH]; intros acc; simpl.
  - intros [= <-]. exists []. rewrite app_nil_r. split; [reflexivity|constructor].
  - destruct (AudioToMidi.for_notes (PrettyMidi.notes i) acc) as [acc'|] eqn:Hi;
      simpl; [|discriminate].
    intros H. destruct (for_notes_spec _ _ _ Hi) as (ts1 & -> & HF1).
    destruct (IH _ H) as (ts2 & -> & HF2).
    exists (ts1 ++ ts2)%list. rewrite <- app_assoc. split; [reflexivity|].
    apply Forall2_app; assumption.
Qed.

Lemma for_notes_total ns acc :
  Forall (fun n => exists t, AudioToMidi.note_tuple n = Ok t) ns ->
  exists out, AudioToMidi.for_notes ns acc = Ok out.
Proof.
  intros H. revert acc. induction H as [|n ns [t Ht] _ IH]; intros acc; simpl; [eauto|].
  rewrite Ht. simpl. apply IH.
Qed.

Lemma for_instruments_total ins acc :
  Forall (fun n => exists t, AudioToMidi.note_tuple n = Ok t)
    (concat (map PrettyMidi.notes ins)) ->
  exists out, AudioToMidi.for_instruments ins acc = Ok out.
Proof.
  revert acc. induction ins as [|i ins IH]; intros acc; simpl; [eauto|].
  intros H. apply Forall_app in H as [H1 H2].
  destruct (for_notes_total _ acc H1) as [acc' ->]. simpl. apply IH, H2.
Qed.

Lemma flattened_note_events ins flat :
  AudioToMidi.for_instruments ins [] = Ok flat -> Forall is_note_event flat.
Proof.
  intros H. destruct (for_instruments_spec _ _ _ H) as (ts & -> & HF). simpl.
  clear H. induction HF as [|n t ns ts Ht _ IH]; constructor; [|exact IH].
  destruct (note_tuple_shape _ _ Ht) as (p & s & e & v & -> & _).
  exists p, s, e, v. reflexivity.
Qed.

Lemma convert_Ok predict audio_path onset frame w out :
  fst (AudioToMidi.convert_audio_to_midi predict audio_path onset frame w) = Ok out ->
  exists midi_data,
    predict audio_path onset frame (w_fs w) = Ok midi_data /\
    processed midi_data = Ok out.
Proof.
  rewrite convert_run.
  destruct (Os.path_exists (w_fs w) audio_path); [|discriminate].
  destruct (predict audio_path onset frame (w_fs w)) as [midi_data|]; [|discriminate].
  destruct (processed midi_data) as [out'|] eqn:Hp; [|discriminate].
  simpl. intros [= <-]. eauto.
Qed.

(** C9. Every entry of the list the converter returns is a tuple of four
    fields, an int, two floats and an int; the test of the writer that
    passes over the entries without four fields is false on each of them. *)
Theorem convert_emits_note_events
    (predict : string -> spec_float -> spec_float -> gmap (list string) Os.node ->
               result PrettyMidi.PrettyMIDI)
    (audio_path : string) (onset frame : spec_float) (w : world)
    (out : list (list Py.pyval)) :
  fst (AudioToMidi.convert_audio_to_midi predict audio_path onset frame w) = Ok out ->
  Forall is_note_event out /\
  Forall (fun t => has_four_fields t = true) out.
Proof.
  intros H. destruct (convert_Ok _ _ _ _ _ _ H) as (midi_data & _ & Hp).
  unfold processed in Hp.
  destruct (AudioToMidi.for_instruments _ _) as [flat|] eqn:Hf; simpl in Hp; [|discriminate].
  assert (Hout : Forall is_note_event out).
  { rewrite (sort_Permutation _ _ _ Hp). eapply flattened_note_events, Hf. }
  split; [exact Hout|].
  eapply Forall_impl; [exact Hout|].
  intros t (p & s & e & v & ->). reflexivity.
Qed.

Lemma convert_emits_note_events_witness : Forall is_note_event Fixture.sorted.
Proof.
  apply (convert_emits_note_events Fixture.predict "/tmp/a.wav"
           (Fixture.dyadic 1 (-1)) (Fixture.dyadic 1 (-2)) Fixture.w).
  vm_compute. reflexivity.
Defined.

(** ** The order of the converter's output *)

Lemma StronglySorted_adjacent {A} (R : A -> A -> Prop) (l : list A) (i : nat) a b :
  StronglySorted R l -> l !! i = Some a -> l !! S i = Some b -> R a b.
Proof.
  intros Hs. revert i. induction Hs as [|x l Hs IH Hx]; intros i; [discriminate|].
  destruct i as [|i]; simpl.
  - intros [= <-] Hb. rewrite Forall_forall in Hx. apply Hx.
    eapply list_elem_of_lookup_2. exact Hb.
  - apply IH.
Qed.

Lemma filter_map_snd (k : spec_float) (l : list (Py.pyval * list Py.pyval)) :
  Forall keyed_by_start l ->
  List.filter (starts_at k) (map snd l) = map snd (List.filter (key_at k) l).
Proof.
  induction 1 as [|kx l (s & Hk & _ & Hs) _ IH]; simpl; [reflexivity|].
  unfold starts_at at 1, key_at at 1. rewrite Hs, Hk.
  destruct (SFeqb s k); simpl; rewrite IH; reflexivity.
Qed.

Lemma keyed_by_start_float_key kx : keyed_by_start kx -> float_key kx.
Proof. intros (s & Hk & Hn & _). exists s. auto. Qed.

Lemma sorted_keys_sorted_by_start (r : list (Py.pyval * list Py.pyval)) :
  Forall keyed_by_start r -> StronglySorted key_le r -> sorted_by_start (map snd r).
Proof.
  intros Hr Hs i a b Ha Hb.
  rewrite list_lookup_fmap in Ha, Hb.
  destruct (r !! i) as [ka|] eqn:Hka; [|discriminate].
  destruct (r !! S i) as [kb|] eqn:Hkb; [|discriminate].
  injection Ha as <-. injection Hb as <-.
  destruct (StronglySorted_adjacent _ _ _ _ _ Hs Hka Hkb) as (sa & sb & Hfa & Hfb & Hle).
  rewrite Forall_forall in Hr.
  destruct (Hr ka) as (sa' & Hfa' & _ & Hsa);
    [eapply list_elem_of_lookup_2; exact Hka|].
  destruct (Hr kb) as (sb' & Hfb' & _ & Hsb);
    [eapply list_elem_of_lookup_2; exact Hkb|].
  rewrite Hfa in Hfa'. injection Hfa' as <-.
  rewrite Hfb in Hfb'. injection Hfb' as <-.
  exists sa, sb. auto.
Qed.

(** The keys of the flattened list are its start times. *)
Lemma keyed_flat ns flat ks :
  Forall (fun n => Py.float (PrettyMidi.start n) <> Ok S754_nan) ns ->
  Forall2 (fun n t => AudioToMidi.note_tuple n = Ok t) ns flat ->
  Py.keyed AudioToMidi.start_key flat = Ok ks ->
  Forall keyed_by_start ks.
Proof.
  intros Hnan HF. revert ks.
  induction HF as [|n t ns flat Ht HF IH]; intros ks; simpl.
  - intros [= <-]. constructor.
  - inversion Hnan as [|? ? Hn Hns]; subst.
    destruct (note_tuple_shape _ _ Ht) as (p & s & e & v & -> & _ & Hs & _).
    simpl. destruct (Py.keyed AudioToMidi.start_key flat) as [ks'|]; simpl; [|discriminate].
    intros [= <-]. constructor; [|apply IH; auto].
    exists s. simpl. repeat split.
    destruct s; try reflexivity. congruence.
Qed.

(** C1. When the converter returns, and no note of the model's output has a
    start time that is not a number, the list it returns is a permutation of
    the list [flat] of the tuples of the model's notes, instrument after
    instrument; it is in the order of the start times,
    [notes[i][1] <= notes[i+1][1]]; and the entries with one start time come
    in the order they have in [flat]. *)
Theorem convert_sorted_stable
    (predict : string -> spec_float -> spec_float -> gmap (list string) Os.node ->
               result PrettyMidi.PrettyMIDI)
    (audio_path : string) (onset frame : spec_float) (w : world)
    (midi_data : PrettyMidi.PrettyMIDI) (out : list (list Py.pyval)) :
  predict audio_path onset frame (w_fs w) = Ok midi_data ->
  Forall (fun n => Py.float (PrettyMidi.start n) <> Ok S754_nan) (all_notes midi_data) ->
  fst (AudioToMidi.convert_audio_to_midi predict audio_path onset frame w) = Ok out ->
  exists flat,
    AudioToMidi.for_instruments (PrettyMidi.instruments midi_data) [] = Ok flat /\
    Forall2 (fun n t => AudioToMidi.note_tuple n = Ok t) (all_notes midi_data) flat /\
    out ≡ₚ flat /\
    sorted_by_start out /\
    stable_on_start flat out.
Proof.
  intros Hpred Hnan H.
  destruct (convert_Ok _ _ _ _ _ _ H) as (midi_data' & Hpred' & Hp).
  rewrite Hpred in Hpred'. injection Hpred' as <-.
  unfold processed in Hp.
  destruct (AudioToMidi.for_instruments _ _) as [flat|] eqn:Hf; simpl in Hp; [|discriminate].
  exists flat. split; [reflexivity|].
  destruct (for_instruments_spec _ _ _ Hf) as (ts & Hts & HF). simpl in Hts. subst ts.
  split; [exact HF|]. split; [exact (sort_Permutation _ _ _ Hp)|].
  unfold Py.sort in Hp.
  destruct (Py.keyed AudioToMidi.start_key flat) as [ks|] eqn:Hk; simpl in Hp; [|discriminate].
  destruct (Py.sort_from [] ks) as [r|] eqn:Hr; simpl in Hp; [|discriminate].
  injection Hp as <-.
  pose proof (keyed_flat _ _ _ Hnan HF Hk) as Hks.
  assert (Hrs : Forall keyed_by_start r).
  { rewrite (sort_from_Permutation _ _ _ Hr). exact Hks. }
  destruct (sort_from_sorted_stable ks [] r) as [Hs Hst]; auto.
  { eapply Forall_impl; [exact Hks|]. apply keyed_by_start_float_key. }
  { constructor. }
  split; [apply sorted_keys_sorted_by_start; assumption|].
  intros k. rewrite (filter_map_snd k r Hrs), Hst. simpl.
  rewrite <- (filter_map_snd k ks Hks).
  destruct (keyed_spec _ _ _ Hk) as [-> _]. reflexivity.
Qed.

Lemma convert_sorted_stable_witness :
  fst (AudioToMidi.convert_audio_to_midi Fixture.predict "/tmp/a.wav"
         (Fixture.dyadic 1 (-1)) (Fixture.dyadic 1 (-2)) Fixture.w) = Ok Fixture.sorted
  /\ sorted_by_start Fixture.sorted
  /\ stable_on_start Fixture.flat Fixture.sorted.
Proof.
  assert (Hrun : fst (AudioToMidi.convert_audio_to_midi Fixture.predict "/tmp/a.wav"
                        (Fixture.dyadic 1 (-1)) (Fixture.dyadic 1 (-2)) Fixture.w)
                 = Ok Fixture.sorted) by (vm_compute; reflexivity).
  assert (Hnan : Forall (fun n => Py.float (PrettyMidi.start n) <> Ok S754_nan)
                   (all_notes Fixture.midi_data))
    by (repeat constructor; vm_compute; discriminate).
  split; [exact Hrun|].
  destruct (convert_sorted_stable Fixture.predict "/tmp/a.wav"
              (Fixture.dyadic 1 (-1)) (Fixture.dyadic 1 (-2)) Fixture.w
              Fixture.midi_data Fixture.sorted eq_refl Hnan Hrun)
    as (flat & Hflat & _ & _ & Hs & Hst).
  split; [exact Hs|].
  assert (Hf : AudioToMidi.for_instruments (PrettyMidi.instruments Fixture.midi_data) []
               = Ok Fixture.flat) by (vm_compute; reflexivity).
  rewrite Hf in Hflat. injection Hflat as <-. exact Hst.
Defined.

(** The converter returns whenever the path exists, the model returns and
    the fields of its notes convert. *)
Lemma convert_returns
    (predict : string -> spec_float -> spec_float -> gmap (list string) Os.node ->
               result PrettyMidi.PrettyMIDI)
    (audio_path : string) (onset frame : spec_float) (w : world)
    (midi_data : PrettyMidi.PrettyMIDI) :
  Os.path_exists (w_fs w) audio_path = true ->
  predict audio_path onset frame (w_fs w) = Ok midi_data ->
  Forall (fun n => exists t, AudioToMidi.note_tuple n = Ok t) (all_notes midi_data) ->
  exists out,
    fst (AudioToMidi.convert_audio_to_midi predict audio_path onset frame w) = Ok out.
Proof.
  intros Hex Hpred Hconv. rewrite convert_run, Hex, Hpred.
  destruct (for_instruments_total _ [] Hconv) as [flat Hf].
  assert (Hflat : Forall is_note_event flat) by eauto using flattened_note_events.
  unfold processed. rewrite Hf. simpl. unfold Py.sort.
  assert (Hk : exists ks, Py.keyed AudioToMidi.start_key flat = Ok ks /\
                 Forall (fun y : Py.pyval * list Py.pyval =>
                           exists s, fst y = Py.PyFloat s) ks).
  { clear Hf. induction Hflat as [|t flat (p & s & e & v & ->) _ (ks & Hks & HF)]; simpl.
    - exists []. split; [reflexivity|constructor].
    - rewrite Hks. simpl. eexists. split; [reflexivity|].
      constructor; [simpl; eauto|exact HF]. }
  destruct Hk as (ks & -> & HF). simpl.
  destruct (sort_from_float_keys ks [] HF) as [r ->]; [constructor|].
  simpl. eauto.
Qed.

(** ** Directories and files *)

Lemma lookup_node_insert_ne (fs : gmap (list string) Os.node) f n p :
  p <> f -> Os.lookup_node (<[f := n]> fs) p = Os.lookup_node fs p.
Proof.
  intros Hne. destruct p as [|c p]; [reflexivity|]. simpl.
  apply lookup_insert_ne. congruence.
Qed.

Lemma lookup_node_insert_eq (fs : gmap (list string) Os.node) f n :
  f <> [] -> Os.lookup_node (<[f := n]> fs) f = Some n.
Proof.
  intros Hne. destruct f as [|c f]; [congruence|]. simpl. apply lookup_insert_eq.
Qed.

Lemma dirs_kept_trans fs1 fs2 fs3 :
  dirs_kept fs1 fs2 -> dirs_kept fs2 fs3 -> dirs_kept fs1 fs3.
Proof. unfold dirs_kept. auto. Qed.

(** Writing at an address that is not a directory keeps the directories. *)
Lemma dirs_kept_insert (fs : gmap (list string) Os.node) f n :
  Os.lookup_node fs f <> Some Os.Dir -> dirs_kept fs (<[f := n]> fs).
Proof.
  intros Hf p Hp. rewrite lookup_node_insert_ne; [exact Hp|]. congruence.
Qed.

Lemma mkdirs_dirs_kept cs fs cur fs' :
  Os.mkdirs fs cur cs = inr fs' -> dirs_kept fs fs'.
Proof.
  revert fs cur. induction cs as [|c cs IH]; intros fs cur; simpl.
  - intros [= <-]. intros p Hp. exact Hp.
  - destruct (Os.lookup_node fs (Os.step cur c)) as [[content|]|] eqn:Hl.
    + discriminate.
    + apply IH.
    + intros H. eapply dirs_kept_trans; [|eapply IH, H].
      apply dirs_kept_insert. congruence.
Qed.

(** [os.makedirs] with [exist_ok] on directories that exist changes nothing. *)
Lemma mkdirs_again cs fs cur fs' fs2 :
  Os.mkdirs fs cur cs = inr fs' -> dirs_kept fs' fs2 -> Os.mkdirs fs2 cur cs = inr fs2.
Proof.
  revert fs cur. induction cs as [|c cs IH]; intros fs cur; simpl; [reflexivity|].
  destruct (Os.lookup_node fs (Os.step cur c)) as [[content|]|] eqn:Hl.
  - discriminate.
  - intros H Hk. rewrite (Hk _ (mkdirs_dirs_kept _ _ _ _ H _ Hl)). eapply IH; eauto.
  - intros H Hk.
    assert (Hne : Os.step cur c <> []) by (intros E; rewrite E in Hl; discriminate).
    rewrite (Hk _ (mkdirs_dirs_kept _ _ _ _ H _
                     (lookup_node_insert_eq fs _ Os.Dir Hne))).
    eapply IH; eauto.
Qed.

Lemma resolve_dirs_kept cs fs cur p fs2 :
  Os.resolve fs cur cs = inr p -> dirs_kept fs fs2 -> Os.resolve fs2 cur cs = inr p.
Proof.
  revert cur. induction cs as [|c cs IH]; intros cur; simpl; [auto|].
  destruct (Os.lookup_node fs cur) as [[content|]|] eqn:Hl; try discriminate.
  intros H Hk. rewrite (Hk _ Hl). auto.
Qed.

Lemma makedirs_again fs s fs' fs2 :
  Os.makedirs fs s = Ok fs' -> dirs_kept fs' fs2 -> Os.makedirs fs2 s = Ok fs2.
Proof.
  unfold Os.makedirs. destruct (String.eqb s ""); [discriminate|].
  destruct (Os.mkdirs fs [] (Os.components s)) as [n|fs0] eqn:Hm; [discriminate|].
  intros [= <-] Hk. rewrite (mkdirs_again _ _ _ _ _ Hm Hk). reflexivity.
Qed.

(** What a successful [open(s, "wb")] tells. *)
Lemma open_wb_Ok fs s f fs2 :
  Os.open_wb fs s = Ok (f, fs2) ->
  String.eqb s "" = false /\
  Os.resolve fs [] (Os.components s) = inr f /\
  Os.must_be_dir s = false /\
  Os.lookup_node fs f <> Some Os.Dir /\
  f <> [] /\
  fs2 = <[f := Os.File []]> fs.
Proof.
  unfold Os.open_wb. destruct (String.eqb s ""); [discriminate|].
  destruct (Os.resolve fs [] (Os.components s)) as [n|p]; [discriminate|].
  destruct (Os.lookup_node fs p) as [[content|]|] eqn:Hl; try discriminate;
    (destruct (Os.must_be_dir s); [discriminate|]);
    intros [= <- <-]; repeat split; try congruence;
    intros ->; discriminate.
Qed.

Lemma write_after_open (fs : gmap (list string) Os.node) f bs :
  Os.write (<[f := Os.File []]> fs) f bs = <[f := Os.File bs]> fs.
Proof.
  unfold Os.write. rewrite lookup_insert_eq. simpl. apply insert_insert_eq.
Qed.

(** C8. After a call of the writer that returns, the same call returns
    again and leaves every file as the first call left it: the directory is
    there and is not an error, the destination is opened anew, and the file
    at [os.path.join(output_path, file_name)] holds the bytes of [writeFile]
    once. *)
Theorem save_midi_idempotent
    (rejects : MidiUtil.MIDIFile -> MidiUtil.event -> option exn)
    (writeFile : MidiUtil.MIDIFile -> list byte * option exn)
    (midi_data : list (list Py.pyval)) (file_name output_path : string)
    (tempo : Z) (w w1 : world) :
  SaveMidi.save_midi rejects writeFile midi_data file_name output_path tempo w = (Ok tt, w1) ->
  SaveMidi.save_midi rejects writeFile midi_data file_name output_path tempo w1 = (Ok tt, w1)
  /\ exists midi,
       SaveMidi.build rejects midi_data tempo = Ok midi /\
       read_file (w_fs w1) (Os.path_join output_path file_name) = Some (fst (writeFile midi)).
Proof.
  intros H.
  assert (Hne : midi_data <> []) by (intros ->; discriminate).
  rewrite save_midi_run in * by exact Hne. unfold persist in *.
  destruct (SaveMidi.build rejects midi_data tempo) as [midi|]; [|discriminate].
  destruct (Os.makedirs (w_fs w) output_path) as [fs1|] eqn:Hmk; [|discriminate].
  destruct (Os.open_wb fs1 (Os.path_join output_path file_name)) as [[f fs2]|] eqn:Hop;
    [|discriminate].
  destruct (snd (writeFile midi)) as [e|] eqn:Hwf; [discriminate|].
  injection H as <-. simpl.
  destruct (open_wb_Ok _ _ _ _ Hop) as (Hs & Hres & Hmd & Hnd & Hf & ->).
  rewrite write_after_open.
  assert (Hk : dirs_kept fs1 (<[f := Os.File (fst (writeFile midi))]> fs1))
    by (apply dirs_kept_insert; exact Hnd).
  assert (Hres' : Os.resolve (<[f := Os.File (fst (writeFile midi))]> fs1) []
                    (Os.components (Os.path_join output_path file_name)) = inr f)
    by (eapply resolve_dirs_kept; eauto).
  split.
  - rewrite (makedirs_again _ _ _ _ Hmk Hk).
    unfold Os.open_wb. rewrite Hs, Hres', lookup_node_insert_eq, Hmd by exact Hf.
    simpl. unfold Os.write. rewrite lookup_insert_eq. simpl.
    rewrite !insert_insert_eq. reflexivity.
  - exists midi. split; [reflexivity|].
    unfold read_file. rewrite Hs, Hres', lookup_node_insert_eq, Hmd by exact Hf.
    reflexivity.
Qed.

Lemma save_midi_idempotent_witness :
  SaveMidi.save_midi Fixture.rejects Fixture.writeFile Fixture.loud "t.mid" "/tmp/out" 120
    Fixture.saved = (Ok tt, Fixture.saved)
  /\ read_file (w_fs Fixture.saved) "/tmp/out/t.mid" = Some [x4d; x54; x68; x64; x90; x7f; x00].
Proof.
  assert (H1 : SaveMidi.save_midi Fixture.rejects Fixture.writeFile Fixture.loud
                 "t.mid" "/tmp/out" 120 Fixture.w = (Ok tt, Fixture.saved))
    by (vm_compute; reflexivity).
  split.
  - exact (proj1 (save_midi_idempotent Fixture.rejects Fixture.writeFile Fixture.loud
                    "t.mid" "/tmp/out" 120 Fixture.w Fixture.saved H1)).
  - vm_compute. reflexivity.
Defined.

(** * Further properties of the converter *)

Lemma for_notes_app ns1 ns2 acc :
  AudioToMidi.for_notes (ns1 ++ ns2) acc =
  rbind (AudioToMidi.for_notes ns1 acc) (AudioToMidi.for_notes ns2).
Proof.
  revert acc. induction ns1 as [|n ns1 IH]; intros acc; simpl; [reflexivity|].
  destruct (AudioToMidi.note_tuple n) as [t|]; simpl; [apply IH|reflexivity].
Qed.

(** The two loops are one loop over the notes of all the instruments. *)
Lemma for_instruments_concat ins acc :
  AudioToMidi.for_instruments ins acc =
  AudioToMidi.for_notes (concat (map PrettyMidi.notes ins)) acc.
Proof.
  revert acc. induction ins as [|i ins IH]; intros acc; simpl; [reflexivity|].
  rewrite for_notes_app.
  destruct (AudioToMidi.for_notes (PrettyMidi.notes i) acc); simpl; [apply IH|reflexivity].
Qed.

Lemma for_notes_first_failure ns1 n ns2 acc e :
  Forall (fun m => exists t, AudioToMidi.note_tuple m = Ok t) ns1 ->
  AudioToMidi.note_tuple n = Raise e ->
  AudioToMidi.for_notes (ns1 ++ n :: ns2) acc = Raise e.
Proof.
  intros H Hn. revert acc. induction H as [|m ns1 [t Ht] _ IH]; intros acc; simpl.
  - rewrite Hn. reflexivity.
  - rewrite Ht. simpl. apply IH.
Qed.

Lemma convert_output_note_events predict audio_path onset frame w out :
  fst (AudioToMidi.convert_audio_to_midi predict audio_path onset frame w) = Ok out ->
  Forall is_note_event out.
Proof.
  intros H. destruct (convert_Ok _ _ _ _ _ _ H) as (midi_data & _ & Hp).
  unfold processed in Hp.
  destruct (AudioToMidi.for_instruments _ _) as [flat|] eqn:Hf; simpl in Hp; [|discriminate].
  rewrite (sort_Permutation _ _ _ Hp). eapply flattened_note_events, Hf.
Qed.

(** X1. Whatever the start times are, the list the converter returns is a
    permutation of the tuples [(int(pitch), float(start), float(end),
    int(velocity))] of the model's notes: it has one entry for each note of
    each instrument, none dropped and none added. *)
Theorem convert_keeps_every_note
    (predict : string -> spec_float -> spec_float -> gmap (list string) Os.node ->
               result PrettyMidi.PrettyMIDI)
    (audio_path : string) (onset frame : spec_float) (w : world)
    (midi_data : PrettyMidi.PrettyMIDI) (out : list (list Py.pyval)) :
  predict audio_path onset frame (w_fs w) = Ok midi_data ->
  fst (AudioToMidi.convert_audio_to_midi predict audio_path onset frame w) = Ok out ->
  length out = length (all_notes midi_data) /\
  exists flat,
    Forall2 (fun n t => AudioToMidi.note_tuple n = Ok t) (all_notes midi_data) flat /\
    out ≡ₚ flat.
Proof.
  intros Hpred H.
  destruct (convert_Ok _ _ _ _ _ _ H) as (midi_data' & Hpred' & Hp).
  rewrite Hpred in Hpred'. injection Hpred' as <-.
  unfold processed in Hp.
  destruct (AudioToMidi.for_instruments _ _) as [flat|] eqn:Hf; simpl in Hp; [|discriminate].
  destruct (for_instruments_spec _ _ _ Hf) as (ts & Hts & HF). simpl in Hts. subst ts.
  pose proof (sort_Permutation _ _ _ Hp) as Hperm.
  split.
  - rewrite (Permutation_length Hperm). symmetry. exact (Forall2_length _ _ _ HF).
  - exists flat. split; assumption.
Qed.

Lemma convert_keeps_every_note_witness :
  length Fixture.sorted = length (all_notes Fixture.midi_data).
Proof.
  apply (convert_keeps_every_note Fixture.predict "/tmp/a.wav"
           (Fixture.dyadic 1 (-1)) (Fixture.dyadic 1 (-2)) Fixture.w
           Fixture.midi_data Fixture.sorted eq_refl).
  vm_compute. reflexivity.
Defined.

(** X2. The grouping of the notes into instruments is lost: two outputs of
    the model with the same notes in the same order, however they are split
    into instruments, give the same result and the same world. *)
Theorem convert_merges_instruments
    (predict1 predict2 : string -> spec_float -> spec_float ->
                         gmap (list string) Os.node -> result PrettyMidi.PrettyMIDI)
    (audio_path : string) (onset frame : spec_float) (w : world)
    (midi_data1 midi_data2 : PrettyMidi.PrettyMIDI) :
  predict1 audio_path onset frame (w_fs w) = Ok midi_data1 ->
  predict2 audio_path onset frame (w_fs w) = Ok midi_data2 ->
  all_notes midi_data1 = all_notes midi_data2 ->
  AudioToMidi.convert_audio_to_midi predict1 audio_path onset frame w =
  AudioToMidi.convert_audio_to_midi predict2 audio_path onset frame w.
Proof.
  intros H1 H2 Hn. rewrite !convert_run, H1, H2.
  unfold processed. rewrite !for_instruments_concat.
  unfold all_notes in Hn. rewrite Hn. reflexivity.
Qed.

Lemma convert_merges_instruments_witness :
  AudioToMidi.convert_audio_to_midi (Fixture.predict_const Fixture.midi_data) "/tmp/a.wav"
    (Fixture.dyadic 1 (-1)) (Fixture.dyadic 1 (-2)) Fixture.w =
  AudioToMidi.convert_audio_to_midi (Fixture.predict_const Fixture.merged) "/tmp/a.wav"
    (Fixture.dyadic 1 (-1)) (Fixture.dyadic 1 (-2)) Fixture.w.
Proof.
  apply (convert_merges_instruments
           (Fixture.predict_const Fixture.midi_data) (Fixture.predict_const Fixture.merged)
           "/tmp/a.wav" (Fixture.dyadic 1 (-1)) (Fixture.dyadic 1 (-2)) Fixture.w
           Fixture.midi_data Fixture.merged eq_refl eq_refl eq_refl).
Defined.

(** X3. One note whose fields do not convert ends the conversion: with the
    notes before it converting, the converter raises [RuntimeError] with the
    message of that note's [int()] or [float()] after the prefix, returns no
    part of the list, and has called the model. *)
Theorem convert_first_bad_note
    (predict : string -> spec_float -> spec_float -> gmap (list string) Os.node ->
               result PrettyMidi.PrettyMIDI)
    (audio_path : string) (onset frame : spec_float) (w : world)
    (midi_data : PrettyMidi.PrettyMIDI)
    (before : list PrettyMidi.Note) (n : PrettyMidi.Note) (after : list PrettyMidi.Note)
    (e : exn) :
  Os.path_exists (w_fs w) audio_path = true ->
  predict audio_path onset frame (w_fs w) = Ok midi_data ->
  all_notes midi_data = (before ++ n :: after)%list ->
  Forall (fun m => exists t, AudioToMidi.note_tuple m = Ok t) before ->
  AudioToMidi.note_tuple n = Raise e ->
  AudioToMidi.convert_audio_to_midi predict audio_path onset frame w =
    (Raise (Exn RuntimeError ("Error during audio-to-MIDI conversion: " +:+ exn_str e)),
     called audio_path onset frame w).
Proof.
  intros Hex Hpred Hall Hbefore Hn. rewrite convert_run, Hex, Hpred.
  unfold processed. rewrite for_instruments_concat.
  unfold all_notes in Hall. rewrite Hall.
  rewrite (for_notes_first_failure _ _ _ _ _ Hbefore Hn). reflexivity.
Qed.

Lemma convert_first_bad_note_witness :
  AudioToMidi.convert_audio_to_midi (Fixture.predict_const Fixture.broken) "/tmp/a.wav"
    (Fixture.dyadic 1 (-1)) (Fixture.dyadic 1 (-2)) Fixture.w =
    (Raise (Exn RuntimeError
       "Error during audio-to-MIDI conversion: int() argument must be a string, a bytes-like object or a real number, not 'NoneType'"),
     called "/tmp/a.wav" (Fixture.dyadic 1 (-1)) (Fixture.dyadic 1 (-2)) Fixture.w).
Proof.
  apply (convert_first_bad_note (Fixture.predict_const Fixture.broken) "/tmp/a.wav"
           (Fixture.dyadic 1 (-1)) (Fixture.dyadic 1 (-2)) Fixture.w Fixture.broken
           [Fixture.note 60 (Fixture.dyadic 1 0) (Fixture.dyadic 2 0) 100]
           {| PrettyMidi.pitch := Py.PyNone;
              PrettyMidi.start := Py.PyFloat (Fixture.dyadic 1 0);
              PrettyMidi.end_ := Py.PyFloat (Fixture.dyadic 2 0);
              PrettyMidi.velocity := Py.PyInt 80 |}
           [Fixture.note 65 (Fixture.dyadic 1 (-1)) (Fixture.dyadic 1 0) 70]
           (Exn TypeError
              "int() argument must be a string, a bytes-like object or a real number, not 'NoneType'")
           eq_refl eq_refl eq_refl).
  - repeat constructor. eexists. vm_compute. reflexivity.
  - reflexivity.
Defined.

(** X4. The converter writes nothing: the files are as they were after every
    call. It calls the model once, with the path and the two thresholds it
    was given, when the path exists, and not at all when it does not. *)
Theorem convert_effects
    (predict : string -> spec_float -> spec_float -> gmap (list string) Os.node ->
               result PrettyMidi.PrettyMIDI)
    (audio_path : string) (onset frame : spec_float) (w : world) :
  w_fs (snd (AudioToMidi.convert_audio_to_midi predict audio_path onset frame w)) = w_fs w
  /\ w_calls (snd (AudioToMidi.convert_audio_to_midi predict audio_path onset frame w)) =
       (w_calls w ++
        if Os.path_exists (w_fs w) audio_path
        then [PredictCall audio_path onset frame] else [])%list.
Proof.
  rewrite convert_run.
  destruct (Os.path_exists (w_fs w) audio_path).
  - destruct (predict audio_path onset frame (w_fs w)) as [midi_data|];
      [destruct (processed midi_data)|]; split; reflexivity.
  - simpl. rewrite app_nil_r. split; reflexivity.
Qed.

(** * Further properties of the writer *)

Lemma mkdirs_nodes_kept (cs : list string) (fs : gmap (list string) Os.node) cur fs' q n :
  Os.mkdirs fs cur cs = inr fs' -> fs !! q = Some n -> fs' !! q = Some n.
Proof.
  revert fs cur. induction cs as [|c cs IH]; intros fs cur; simpl.
  - intros [= <-] Hq. exact Hq.
  - destruct (Os.lookup_node fs (Os.step cur c)) as [[content|]|] eqn:Hl.
    + discriminate.
    + apply IH.
    + intros H Hq. eapply IH; [exact H|].
      rewrite lookup_insert_ne; [exact Hq|].
      intros <-. destruct (Os.step cur c); simpl in Hl; congruence.
Qed.

(** After [os.makedirs] the path resolves to a directory. *)
Lemma mkdirs_resolve (cs : list string) (fs : gmap (list string) Os.node) cur fs' :
  Os.lookup_node fs cur = Some Os.Dir ->
  Os.mkdirs fs cur cs = inr fs' ->
  exists p, Os.resolve fs' cur cs = inr p /\ Os.lookup_node fs' p = Some Os.Dir.
Proof.
  revert fs cur. induction cs as [|c cs IH]; intros fs cur Hcur; simpl.
  - intros [= <-]. eauto.
  - destruct (Os.lookup_node fs (Os.step cur c)) as [[content|]|] eqn:Hl.
    + discriminate.
    + intros H. rewrite (mkdirs_dirs_kept _ _ _ _ H _ Hcur). eapply IH; eauto.
    + intros H.
      assert (Hne : Os.step cur c <> []) by (intros E; rewrite E in Hl; discriminate).
      assert (Hk : dirs_kept fs (<[Os.step cur c := Os.Dir]> fs))
        by (apply dirs_kept_insert; congruence).
      rewrite (mkdirs_dirs_kept _ _ _ _ H _ (Hk _ Hcur)).
      eapply IH; [|exact H]. apply lookup_node_insert_eq, Hne.
Qed.

Lemma makedirs_exists fs s fs1 fs2 :
  Os.makedirs fs s = Ok fs1 -> dirs_kept fs1 fs2 ->
  Os.path_exists fs2 s = true /\ isfile fs2 s = false.
Proof.
  unfold Os.makedirs, Os.path_exists, isfile, read_file.
  destruct (String.eqb s ""); [discriminate|].
  destruct (Os.mkdirs fs [] (Os.components s)) as [n|fs0] eqn:Hm; [discriminate|].
  intros [= <-] Hk.
  destruct (mkdirs_resolve (Os.components s) fs [] fs0 eq_refl Hm) as (p & Hres & Hdir).
  rewrite (resolve_dirs_kept _ _ _ _ _ Hres Hk), (Hk _ Hdir). split; reflexivity.
Qed.

(** The world the writer leaves once the destination has been opened. *)
Lemma save_midi_opened rejects writeFile midi_data file_name output_path tempo w
    midi fs1 f fs2 :
  midi_data <> [] ->
  SaveMidi.build rejects midi_data tempo = Ok midi ->
  Os.makedirs (w_fs w) output_path = Ok fs1 ->
  Os.open_wb fs1 (Os.path_join output_path file_name) = Ok (f, fs2) ->
  snd (SaveMidi.save_midi rejects writeFile midi_data file_name output_path tempo w) =
    World (<[f := Os.File (fst (writeFile midi))]> fs1) (w_calls w).
Proof.
  intros Hne Hb Hmk Hop. rewrite save_midi_run by exact Hne. unfold persist.
  rewrite Hb, Hmk, Hop. simpl.
  destruct (open_wb_Ok _ _ _ _ Hop) as (_ & _ & _ & _ & _ & ->).
  rewrite write_after_open. reflexivity.
Qed.

Lemma for_notes_on_note_events rejects out midi :
  Forall is_note_event out ->
  (forall m ev, rejects m ev = None) ->
  exists evs,
    Forall2 (fun t ev => note_event_of t = Some ev) out evs /\
    SaveMidi.for_notes rejects out midi =
      Ok {| MidiUtil.numTracks := MidiUtil.numTracks midi;
            MidiUtil.events := (MidiUtil.events midi ++ evs)%list |}.
Proof.
  intros Hout Hacc. revert midi.
  induction Hout as [|t out (p & s & e & v & ->) _ IH]; intros midi; simpl.
  - exists []. rewrite app_nil_r. split; [constructor|]. destruct midi; reflexivity.
  - unfold SaveMidi.add_note, MidiUtil.addNote, MidiUtil.add. simpl. rewrite Hacc. simpl.
    destruct (IH {| MidiUtil.numTracks := MidiUtil.numTracks midi;
                    MidiUtil.events :=
                      (MidiUtil.events midi ++
                       [MidiUtil.NoteEvent 0 0 (SaveMidi.clamp p) (Py.PyFloat s)
                          (Py.PyFloat (SFsub Py.prec Py.emax e s)) (SaveMidi.clamp v)])%list |})
      as (evs & HF & ->).
    eexists (_ :: evs). split; [constructor; [reflexivity|exact HF]|].
    simpl. rewrite <- app_assoc. reflexivity.
Qed.

Lemma for_notes_refused rejects out midi e :
  Forall is_note_event out ->
  SaveMidi.for_notes rejects out midi = Raise e ->
  exists m ev, rejects m ev = Some e.
Proof.
  intros Hout. revert midi.
  induction Hout as [|t out (p & s & e' & v & ->) _ IH]; intros midi; simpl; [discriminate|].
  unfold SaveMidi.add_note, MidiUtil.addNote, MidiUtil.add. simpl.
  destruct (rejects midi _) as [e0|] eqn:Hr; simpl.
  - intros [= <-]. eauto.
  - apply IH.
Qed.

(** X5. On a recording in which the model finds no note the converter
    returns the empty list, and the writer, given that list, raises
    [ValueError] and leaves the files as they were: the two nodes in a row
    write no file for it. *)
Theorem silence_is_not_saved
    (predict : string -> spec_float -> spec_float -> gmap (list string) Os.node ->
               result PrettyMidi.PrettyMIDI)
    (rejects : MidiUtil.MIDIFile -> MidiUtil.event -> option exn)
    (writeFile : MidiUtil.MIDIFile -> list byte * option exn)
    (audio_path : string) (onset frame : spec_float)
    (file_name output_path : string) (tempo : Z) (w : world)
    (midi_data : PrettyMidi.PrettyMIDI) :
  Os.path_exists (w_fs w) audio_path = true ->
  predict audio_path onset frame (w_fs w) = Ok midi_data ->
  all_notes midi_data = [] ->
  bind (AudioToMidi.convert_audio_to_midi predict audio_path onset frame)
       (fun notes => SaveMidi.save_midi rejects writeFile notes file_name output_path tempo) w =
    (Raise (Exn ValueError "No MIDI data provided"), called audio_path onset frame w).
Proof.
  intros Hex Hpred Hall. unfold bind. rewrite convert_run, Hex, Hpred.
  unfold processed. rewrite for_instruments_concat.
  unfold all_notes in Hall. rewrite Hall. reflexivity.
Qed.

Lemma silence_is_not_saved_witness :
  bind (AudioToMidi.convert_audio_to_midi (Fixture.predict_const Fixture.silence)
          "/tmp/a.wav" (Fixture.dyadic 1 (-1)) (Fixture.dyadic 1 (-2)))
       (fun notes => SaveMidi.save_midi Fixture.rejects Fixture.writeFile notes
                       "t.mid" "/tmp/out" 120) Fixture.w =
    (Raise (Exn ValueError "No MIDI data provided"),
     called "/tmp/a.wav" (Fixture.dyadic 1 (-1)) (Fixture.dyadic 1 (-2)) Fixture.w).
Proof.
  apply (silence_is_not_saved (Fixture.predict_const Fixture.silence)
           Fixture.rejects Fixture.writeFile "/tmp/a.wav"
           (Fixture.dyadic 1 (-1)) (Fixture.dyadic 1 (-2)) "t.mid" "/tmp/out" 120
           Fixture.w Fixture.silence eq_refl eq_refl eq_refl).
Defined.

(** X6. The writer on the converter's list, with a library that refuses no
    call, builds the track of the name, the tempo and one note event for
    each note of the model, in the order of the list: the pitch and the
    velocity brought within 0 and 127, the start of the note as its time,
    and [end - start] in binary64 as its duration, whatever its sign. *)
Theorem converted_notes_track
    (predict : string -> spec_float -> spec_float -> gmap (list string) Os.node ->
               result PrettyMidi.PrettyMIDI)
    (rejects : MidiUtil.MIDIFile -> MidiUtil.event -> option exn)
    (audio_path : string) (onset frame : spec_float) (w : world) (tempo : Z)
    (midi_data : PrettyMidi.PrettyMIDI) (out : list (list Py.pyval)) :
  predict audio_path onset frame (w_fs w) = Ok midi_data ->
  fst (AudioToMidi.convert_audio_to_midi predict audio_path onset frame w) = Ok out ->
  (forall m ev, rejects m ev = None) ->
  exists evs,
    Forall2 (fun t ev => note_event_of t = Some ev) out evs /\
    length evs = length (all_notes midi_data) /\
    SaveMidi.build rejects out tempo = Ok (track_of tempo evs).
Proof.
  intros Hpred H Hacc.
  pose proof (convert_output_note_events _ _ _ _ _ _ H) as Hout.
  unfold SaveMidi.build, MidiUtil.addTrackName, MidiUtil.addTempo, MidiUtil.add.
  rewrite Hacc. simpl. rewrite Hacc. simpl.
  match goal with
  | |- context [SaveMidi.for_notes rejects out ?m] =>
      destruct (for_notes_on_note_events rejects out m Hout Hacc) as (evs & HF & ->)
  end.
  exists evs. split; [exact HF|]. split; [|reflexivity].
  rewrite <- (Forall2_length _ _ _ HF).
  destruct (convert_Ok _ _ _ _ _ _ H) as (midi_data' & Hpred' & Hp).
  rewrite Hpred in Hpred'. injection Hpred' as <-.
  unfold processed in Hp.
  destruct (AudioToMidi.for_instruments _ _) as [flat|] eqn:Hf; simpl in Hp; [|discriminate].
  destruct (for_instruments_spec _ _ _ Hf) as (ts & Hts & HF'). simpl in Hts. subst ts.
  rewrite (Permutation_length (sort_Permutation _ _ _ Hp)).
  symmetry. exact (Forall2_length _ _ _ HF').
Qed.

(** X7. On the converter's list the writer's own steps cannot fail: the
    subtraction, [int()] and the unpacking succeed on every entry, and an
    exception of the assembly of the track is one the library raised. *)
Theorem converted_notes_assemble
    (predict : string -> spec_float -> spec_float -> gmap (list string) Os.node ->
               result PrettyMidi.PrettyMIDI)
    (rejects : MidiUtil.MIDIFile -> MidiUtil.event -> option exn)
    (audio_path : string) (onset frame : spec_float) (w : world) (tempo : Z)
    (out : list (list Py.pyval)) (e : exn) :
  fst (AudioToMidi.convert_audio_to_midi predict audio_path onset frame w) = Ok out ->
  SaveMidi.build rejects out tempo = Raise e ->
  exists m ev, rejects m ev = Some e.
Proof.
  intros H. pose proof (convert_output_note_events _ _ _ _ _ _ H) as Hout.
  unfold SaveMidi.build, MidiUtil.addTrackName, MidiUtil.addTempo, MidiUtil.add.
  destruct (rejects _ _) as [e0|] eqn:H0; simpl; [intros [= <-]; eauto|].
  destruct (rejects _ (MidiUtil.Tempo _ _ _)) as [e1|] eqn:H1; simpl; [intros [= <-]; eauto|].
  apply for_notes_refused, Hout.
Qed.

Lemma converted_notes_track_witness :
  exists evs,
    Forall2 (fun t ev => note_event_of t = Some ev) Fixture.sorted evs /\
    length evs = length (all_notes Fixture.midi_data) /\
    SaveMidi.build Fixture.rejects Fixture.sorted 120 = Ok (track_of 120 evs).
Proof.
  apply (converted_notes_track Fixture.predict Fixture.rejects "/tmp/a.wav"
           (Fixture.dyadic 1 (-1)) (Fixture.dyadic 1 (-2)) Fixture.w 120
           Fixture.midi_data Fixture.sorted eq_refl).
  - vm_compute. reflexivity.
  - intros m ev. reflexivity.
Defined.

Lemma converted_notes_assemble_witness :
  exists m ev, Fixture.rejects_quiet m ev = Some (Exn ValueError "volume too low").
Proof.
  apply (converted_notes_assemble Fixture.predict Fixture.rejects_quiet "/tmp/a.wav"
           (Fixture.dyadic 1 (-1)) (Fixture.dyadic 1 (-2)) Fixture.w 120 Fixture.sorted).
  - vm_compute. reflexivity.
  - vm_compute. reflexivity.
Defined.

(** X8. The writer removes nothing and overwrites one file at most: after
    every call a directory that was there is there, a file that was there
    has its content unless it is the destination
    [os.path.join(output_path, file_name)], and no call of the model has
    been recorded. *)
Theorem save_midi_keeps_other_files
    (rejects : MidiUtil.MIDIFile -> MidiUtil.event -> option exn)
    (writeFile : MidiUtil.MIDIFile -> list byte * option exn)
    (midi_data : list (list Py.pyval)) (file_name output_path : string)
    (tempo : Z) (w : world) :
  let w' := snd (SaveMidi.save_midi rejects writeFile midi_data file_name output_path tempo w) in
  (forall q, w_fs w !! q = Some Os.Dir -> w_fs w' !! q = Some Os.Dir)
  /\ (forall q content,
        w_fs w !! q = Some (Os.File content) ->
        w_fs w' !! q = Some (Os.File content)
        \/ destination (w_fs w') file_name output_path = inr q)
  /\ w_calls w' = w_calls w.
Proof.
  intros w'. subst w'.
  destruct midi_data as [|note rest]; [simpl; auto|].
  rewrite save_midi_run by discriminate. unfold persist.
  destruct (SaveMidi.build rejects (note :: rest) tempo) as [midi|]; [|simpl; auto].
  destruct (Os.makedirs (w_fs w) output_path) as [fs1|] eqn:Hmk; [|simpl; auto].
  assert (Hkept : forall q n, w_fs w !! q = Some n -> fs1 !! q = Some n).
  { unfold Os.makedirs in Hmk. destruct (String.eqb output_path ""); [discriminate|].
    destruct (Os.mkdirs (w_fs w) [] (Os.components output_path)) as [|fs0] eqn:Hm;
      [discriminate|].
    injection Hmk as <-. intros q n. apply (mkdirs_nodes_kept _ _ _ _ _ _ Hm). }
  destruct (Os.open_wb fs1 (Os.path_join output_path file_name)) as [[f fs2]|] eqn:Hop;
    [|simpl; auto].
  destruct (open_wb_Ok _ _ _ _ Hop) as (_ & Hres & _ & Hnd & Hf & ->).
  simpl. rewrite write_after_open.
  assert (Hk : dirs_kept fs1 (<[f := Os.File (fst (writeFile midi))]> fs1))
    by (apply dirs_kept_insert; exact Hnd).
  split; [|split; [|reflexivity]].
  - intros q Hq. apply Hkept in Hq.
    destruct (decide (q = f)) as [->|Hne].
    + exfalso. apply Hnd. destruct f; [congruence|exact Hq].
    + rewrite lookup_insert_ne by congruence. exact Hq.
  - intros q content Hq. apply Hkept in Hq.
    destruct (decide (q = f)) as [->|Hne].
    + right. unfold destination. eapply resolve_dirs_kept; eauto.
    + left. rewrite lookup_insert_ne by congruence. exact Hq.
Qed.

(** X9. The write is not atomic: once the destination has been opened it
    holds the bytes [writeFile] has handed over and nothing of what it held
    before, also when [writeFile] ends in an exception and the writer raises
    [RuntimeError]. *)
Theorem save_midi_failed_write_truncates
    (rejects : MidiUtil.MIDIFile -> MidiUtil.event -> option exn)
    (writeFile : MidiUtil.MIDIFile -> list byte * option exn)
    (midi_data : list (list Py.pyval)) (file_name output_path : string)
    (tempo : Z) (w : world) (midi : MidiUtil.MIDIFile)
    (fs1 : gmap (list string) Os.node) (r : list string * gmap (list string) Os.node) :
  midi_data <> [] ->
  SaveMidi.build rejects midi_data tempo = Ok midi ->
  Os.makedirs (w_fs w) output_path = Ok fs1 ->
  Os.open_wb fs1 (Os.path_join output_path file_name) = Ok r ->
  read_file
    (w_fs (snd (SaveMidi.save_midi rejects writeFile midi_data file_name output_path tempo w)))
    (Os.path_join output_path file_name) = Some (fst (writeFile midi)).
Proof.
  intros Hne Hb Hmk Hop. destruct r as [f fs2].
  rewrite (save_midi_opened _ _ _ _ _ _ _ _ _ _ _ Hne Hb Hmk Hop). simpl.
  destruct (open_wb_Ok _ _ _ _ Hop) as (Hs & Hres & Hmd & Hnd & Hf & _).
  unfold read_file. rewrite Hs.
  rewrite (resolve_dirs_kept _ _ _ _ _ Hres (dirs_kept_insert _ _ _ Hnd)).
  rewrite lookup_node_insert_eq, Hmd by exact Hf. reflexivity.
Qed.

Lemma save_midi_failed_write_truncates_witness :
  read_file (w_fs Fixture.saved) "/tmp/out/t.mid" = Some [x4d; x54; x68; x64; x90; x7f; x00]
  /\ fst (SaveMidi.save_midi Fixture.rejects Fixture.writeFile_failing Fixture.loud
            "t.mid" "/tmp/out" 120 Fixture.saved) =
       Raise (Exn RuntimeError "Error saving MIDI file: pop from empty list")
  /\ read_file
       (w_fs (snd (SaveMidi.save_midi Fixture.rejects Fixture.writeFile_failing Fixture.loud
                     "t.mid" "/tmp/out" 120 Fixture.saved)))
       "/tmp/out/t.mid" = Some [x4d; x54; x68; x64].
Proof.
  split; [vm_compute; reflexivity|]. split; [vm_compute; reflexivity|].
  apply (save_midi_failed_write_truncates Fixture.rejects Fixture.writeFile_failing
           Fixture.loud "t.mid" "/tmp/out" 120 Fixture.saved Fixture.loud_track
           (w_fs Fixture.saved)
           (["tmp"; "out"; "t.mid"],
            <[ ["tmp"; "out"; "t.mid"] := Os.File [] ]> (w_fs Fixture.saved))).
  - discriminate.
  - vm_compute. reflexivity.
  - vm_compute. reflexivity.
  - vm_compute. reflexivity.
Defined.

(** X10. Once [os.makedirs] has returned, the output directory exists and
    is a directory when the writer is done, whether the file has been
    written or the opening or the writing has failed. *)
Theorem save_midi_leaves_directory
    (rejects : MidiUtil.MIDIFile -> MidiUtil.event -> option exn)
    (writeFile : MidiUtil.MIDIFile -> list byte * option exn)
    (midi_data : list (list Py.pyval)) (file_name output_path : string)
    (tempo : Z) (w : world) (midi : MidiUtil.MIDIFile)
    (fs1 : gmap (list string) Os.node) :
  midi_data <> [] ->
  SaveMidi.build rejects midi_data tempo = Ok midi ->
  Os.makedirs (w_fs w) output_path = Ok fs1 ->
  let w' := snd (SaveMidi.save_midi rejects writeFile midi_data file_name output_path tempo w) in
  Os.path_exists (w_fs w') output_path = true /\ isfile (w_fs w') output_path = false.
Proof.
  intros Hne Hb Hmk w'. subst w'.
  rewrite save_midi_run by exact Hne. unfold persist. rewrite Hb, Hmk.
  destruct (Os.open_wb fs1 (Os.path_join output_path file_name)) as [[f fs2]|] eqn:Hop; simpl.
  - destruct (open_wb_Ok _ _ _ _ Hop) as (_ & _ & _ & Hnd & _ & ->).
    rewrite write_after_open.
    eapply makedirs_exists; [exact Hmk|]. apply dirs_kept_insert, Hnd.
  - eapply makedirs_exists; [exact Hmk|]. intros p Hp. exact Hp.
Qed.

Lemma save_midi_leaves_directory_witness :
  Os.path_exists Fixture.fs "/tmp/new/midi/" = false /\
  Os.path_exists
    (w_fs (snd (SaveMidi.save_midi Fixture.rejects Fixture.writeFile_failing Fixture.loud
                  "t.mid" "/tmp/new/midi/" 120 Fixture.w)))
    "/tmp/new/midi/" = true.
Proof.
  split; [reflexivity|].
  refine (proj1 (save_midi_leaves_directory Fixture.rejects Fixture.writeFile_failing
                   Fixture.loud "t.mid" "/tmp/new/midi/" 120 Fixture.w Fixture.loud_track
                   (<[ ["tmp"; "new"; "midi"] := Os.Dir ]>
                      (<[ ["tmp"; "new"] := Os.Dir ]> Fixture.fs)) _ _ _)).
  - discriminate.
  - vm_compute. reflexivity.
  - vm_compute. reflexivity.
Defined.

Lemma read_after_open fs1 s f fs2 bs :
  Os.open_wb fs1 s = Ok (f, fs2) ->
  read_file (<[f := Os.File bs]> fs1) s = Some bs.
Proof.
  intros Hop. destruct (open_wb_Ok _ _ _ _ Hop) as (Hs & Hres & Hmd & Hnd & Hf & _).
  unfold read_file. rewrite Hs.
  rewrite (resolve_dirs_kept _ _ _ _ _ Hres (dirs_kept_insert _ _ _ Hnd)).
  rewrite lookup_node_insert_eq, Hmd by exact Hf. reflexivity.
Qed.

Lemma save_midi_Ok rejects writeFile midi_data file_name output_path tempo w w1 :
  SaveMidi.save_midi rejects writeFile midi_data file_name output_path tempo w = (Ok tt, w1) ->
  exists midi fs1 f fs2,
    SaveMidi.build rejects midi_data tempo = Ok midi /\
    Os.makedirs (w_fs w) output_path = Ok fs1 /\
    Os.open_wb fs1 (Os.path_join output_path file_name) = Ok (f, fs2) /\
    snd (writeFile midi) = None /\
    w1 = World (<[f := Os.File (fst (writeFile midi))]> fs1) (w_calls w).
Proof.
  intros H.
  assert (Hne : midi_data <> []) by (intros ->; discriminate).
  rewrite save_midi_run in H by exact Hne. unfold persist in H.
  destruct (SaveMidi.build rejects midi_data tempo) as [midi|]; [|discriminate].
  destruct (Os.makedirs (w_fs w) output_path) as [fs1|]; [|discriminate].
  destruct (Os.open_wb fs1 (Os.path_join output_path file_name)) as [[f fs2]|] eqn:Hop;
    [|discriminate].
  destruct (snd (writeFile midi)) as [e|] eqn:Hwf; [discriminate|].
  injection H as <-.
  destruct (open_wb_Ok _ _ _ _ Hop) as (_ & _ & _ & _ & _ & Hfs2).
  exists midi, fs1, f, fs2. repeat split; auto.
  rewrite Hfs2, write_after_open. reflexivity.
Qed.

(** X11. A file name that starts with a slash is taken as it is:
    [os.path.join] drops the output directory, and the file the writer has
    written is at [file_name], not under [output_path], which has been
    created all the same. *)
Theorem save_midi_absolute_file_name
    (rejects : MidiUtil.MIDIFile -> MidiUtil.event -> option exn)
    (writeFile : MidiUtil.MIDIFile -> list byte * option exn)
    (midi_data : list (list Py.pyval)) (file_name output_path : string)
    (tempo : Z) (w w1 : world) :
  Os.starts_with_slash file_name = true ->
  SaveMidi.save_midi rejects writeFile midi_data file_name output_path tempo w = (Ok tt, w1) ->
  (exists midi,
     SaveMidi.build rejects midi_data tempo = Ok midi /\
     read_file (w_fs w1) file_name = Some (fst (writeFile midi)))
  /\ Os.path_exists (w_fs w1) output_path = true.
Proof.
  intros Habs H.
  destruct (save_midi_Ok _ _ _ _ _ _ _ _ H) as (midi & fs1 & f & fs2 & Hb & Hmk & Hop & _ & ->).
  assert (Hj : Os.path_join output_path file_name = file_name)
    by (unfold Os.path_join; rewrite Habs; reflexivity).
  rewrite Hj in Hop. simpl. split.
  - exists midi. split; [exact Hb|]. eapply read_after_open, Hop.
  - destruct (open_wb_Ok _ _ _ _ Hop) as (_ & _ & _ & Hnd & _ & _).
    eapply makedirs_exists; [exact Hmk|]. apply dirs_kept_insert, Hnd.
Qed.

Lemma save_midi_absolute_file_name_witness :
  read_file
    (w_fs (snd (SaveMidi.save_midi Fixture.rejects Fixture.writeFile Fixture.loud
                  "/tmp/elsewhere.mid" "/tmp/out" 120 Fixture.w)))
    "/tmp/elsewhere.mid" = Some [x4d; x54; x68; x64; x90; x7f; x00]
  /\ read_file
       (w_fs (snd (SaveMidi.save_midi Fixture.rejects Fixture.writeFile Fixture.loud
                     "/tmp/elsewhere.mid" "/tmp/out" 120 Fixture.w)))
       "/tmp/out/elsewhere.mid" = None.
Proof.
  split; [|vm_compute; reflexivity].
  destruct (save_midi_absolute_file_name Fixture.rejects Fixture.writeFile Fixture.loud
              "/tmp/elsewhere.mid" "/tmp/out" 120 Fixture.w
              (snd (SaveMidi.save_midi Fixture.rejects Fixture.writeFile Fixture.loud
                      "/tmp/elsewhere.mid" "/tmp/out" 120 Fixture.w))
              eq_refl ltac:(vm_compute; reflexivity))
    as [(midi & Hb & Hr) _].
  assert (Hl : SaveMidi.build Fixture.rejects Fixture.loud 120 = Ok Fixture.loud_track)
    by (vm_compute; reflexivity).
  rewrite Hl in Hb. injection Hb as <-. exact Hr.
Defined.

(** X12. The bringing within range changes a pitch or a velocity only when
    it is out of range: a value from 0 to 127 is written as it is, a
    negative one as 0, one above 127 as 127, and the order of two values is
    never reversed. *)
Theorem clamp_changes_only_out_of_range (x y : Z) :
  (SaveMidi.clamp x = x <-> 0 <= x <= 127)
  /\ (x < 0 -> SaveMidi.clamp x = 0)
  /\ (127 < x -> SaveMidi.clamp x = 127)
  /\ (x <= y -> SaveMidi.clamp x <= SaveMidi.clamp y).
Proof. unfold SaveMidi.clamp. lia. Qed.

Lemma writer_for_notes_app rejects l1 l2 midi :
  SaveMidi.for_notes rejects (l1 ++ l2) midi =
  rbind (SaveMidi.for_notes rejects l1 midi) (SaveMidi.for_notes rejects l2).
Proof.
  revert midi. induction l1 as [|note l1 IH]; intros midi; simpl; [reflexivity|].
  destruct (SaveMidi.add_note rejects midi note); simpl; [apply IH|reflexivity].
Qed.

Lemma build_app rejects l1 l2 tempo :
  SaveMidi.build rejects (l1 ++ l2) tempo =
  rbind (SaveMidi.build rejects l1 tempo) (SaveMidi.for_notes rejects l2).
Proof.
  unfold SaveMidi.build.
  destruct (MidiUtil.addTrackName rejects _ _ _ _) as [m0|]; [simpl|reflexivity].
  destruct (MidiUtil.addTempo rejects m0 _ _ _) as [m1|]; [simpl|reflexivity].
  apply writer_for_notes_app.
Qed.

(** X13. The track is assembled before anything is written: when the
    entries before an entry assemble and that entry raises, in the
    subtraction, in [int()] or in the library, the writer raises that very
    exception, not a [RuntimeError], looks at no later entry, and leaves the
    files as they were, without the output directory. *)
Theorem save_midi_first_bad_entry
    (rejects : MidiUtil.MIDIFile -> MidiUtil.event -> option exn)
    (writeFile : MidiUtil.MIDIFile -> list byte * option exn)
    (before : list (list Py.pyval)) (note : list Py.pyval) (after : list (list Py.pyval))
    (file_name output_path : string) (tempo : Z) (w : world)
    (midi : MidiUtil.MIDIFile) (e : exn) :
  SaveMidi.build rejects before tempo = Ok midi ->
  SaveMidi.add_note rejects midi note = Raise e ->
  SaveMidi.save_midi rejects writeFile (before ++ note :: after) file_name output_path tempo w =
    (Raise e, w).
Proof.
  intros Hb Hn. rewrite save_midi_run by (destruct before; discriminate).
  rewrite build_app, Hb. simpl. rewrite Hn. reflexivity.
Qed.

Lemma save_midi_first_bad_entry_witness :
  SaveMidi.save_midi Fixture.rejects Fixture.writeFile
    (Fixture.loud ++
     [Py.PyInt 60; Py.PyFloat (Fixture.dyadic 0 0); Py.PyFloat (Fixture.dyadic 1 0);
      Py.PyFloat S754_nan] :: Fixture.loud)%list
    "t.mid" "/tmp/out" 120 Fixture.w =
    (Raise (Exn ValueError "cannot convert float NaN to integer"), Fixture.w).
Proof.
  apply (save_midi_first_bad_entry Fixture.rejects Fixture.writeFile Fixture.loud
           [Py.PyInt 60; Py.PyFloat (Fixture.dyadic 0 0); Py.PyFloat (Fixture.dyadic 1 0);
            Py.PyFloat S754_nan]
           Fixture.loud "t.mid" "/tmp/out" 120 Fixture.w Fixture.loud_track).
  - vm_compute. reflexivity.
  - vm_compute. reflexivity.
Defined.

(** * The two nodes in a row *)

Lemma convert_Ok_world predict audio_path onset frame w out :
  fst (AudioToMidi.convert_audio_to_midi predict audio_path onset frame w) = Ok out ->
  AudioToMidi.convert_audio_to_midi predict audio_path onset frame w =
    (Ok out, called audio_path onset frame w).
Proof.
  rewrite convert_run.
  destruct (Os.path_exists (w_fs w) audio_path); [|discriminate].
  destruct (predict audio_path onset frame (w_fs w)) as [midi_data|]; [|discriminate].
  destruct (processed midi_data) as [out'|]; [|discriminate].
  simpl. intros [= <-]. reflexivity.
Qed.

Lemma convert_length predict audio_path onset frame w midi_data out :
  predict audio_path onset frame (w_fs w) = Ok midi_data ->
  fst (AudioToMidi.convert_audio_to_midi predict audio_path onset frame w) = Ok out ->
  length out = length (all_notes midi_data).
Proof.
  intros Hpred H.
  destruct (convert_Ok _ _ _ _ _ _ H) as (midi_data' & Hpred' & Hp).
  rewrite Hpred in Hpred'. injection Hpred' as <-.
  unfold processed in Hp.
  destruct (AudioToMidi.for_instruments _ _) as [flat|] eqn:Hf; simpl in Hp; [|discriminate].
  destruct (for_instruments_spec _ _ _ Hf) as (ts & Hts & HF). simpl in Hts. subst ts.
  rewrite (Permutation_length (sort_Permutation _ _ _ Hp)).
  symmetry. exact (Forall2_length _ _ _ HF).
Qed.

Lemma build_on_note_events rejects out tempo :
  Forall is_note_event out ->
  (forall m ev, rejects m ev = None) ->
  exists evs,
    Forall2 (fun t ev => note_event_of t = Some ev) out evs /\
    SaveMidi.build rejects out tempo = Ok (track_of tempo evs).
Proof.
  intros Hout Hacc.
  unfold SaveMidi.build, MidiUtil.addTrackName, MidiUtil.addTempo, MidiUtil.add.
  rewrite Hacc. simpl. rewrite Hacc. simpl.
  match goal with
  | |- context [SaveMidi.for_notes rejects out ?m] =>
      destruct (for_notes_on_note_events rejects out m Hout Hacc) as (evs & HF & ->)
  end.
  exists evs. split; [exact HF|reflexivity].
Qed.

(** X14. The converter and then the writer, on a recording in which the
    model finds a note, with a library that refuses no call and a
    destination that can be opened: the destination holds the bytes of
    [writeFile] for the track of the name, the tempo and one note event for
    each entry of the converter's list, in its order; and the writer
    returns when [writeFile] ends without an exception. *)
Theorem converted_notes_are_saved
    (predict : string -> spec_float -> spec_float -> gmap (list string) Os.node ->
               result PrettyMidi.PrettyMIDI)
    (rejects : MidiUtil.MIDIFile -> MidiUtil.event -> option exn)
    (writeFile : MidiUtil.MIDIFile -> list byte * option exn)
    (audio_path : string) (onset frame : spec_float)
    (file_name output_path : string) (tempo : Z) (w : world)
    (midi_data : PrettyMidi.PrettyMIDI) (out : list (list Py.pyval))
    (fs1 : gmap (list string) Os.node) (r : list string * gmap (list string) Os.node) :
  predict audio_path onset frame (w_fs w) = Ok midi_data ->
  all_notes midi_data <> [] ->
  fst (AudioToMidi.convert_audio_to_midi predict audio_path onset frame w) = Ok out ->
  (forall m ev, rejects m ev = None) ->
  Os.makedirs (w_fs w) output_path = Ok fs1 ->
  Os.open_wb fs1 (Os.path_join output_path file_name) = Ok r ->
  let run :=
    bind (AudioToMidi.convert_audio_to_midi predict audio_path onset frame)
         (fun notes => SaveMidi.save_midi rejects writeFile notes file_name output_path tempo)
         w in
  exists evs,
    Forall2 (fun t ev => note_event_of t = Some ev) out evs /\
    read_file (w_fs (snd run)) (Os.path_join output_path file_name) =
      Some (fst (writeFile (track_of tempo evs))) /\
    (snd (writeFile (track_of tempo evs)) = None -> fst run = Ok tt).
Proof.
  intros Hpred Hnotes H Hacc Hmk Hop run. subst run. destruct r as [f fs2].
  unfold bind. rewrite (convert_Ok_world _ _ _ _ _ _ H).
  assert (Hne : out <> []).
  { intros ->. apply Hnotes.
    pose proof (convert_length _ _ _ _ _ _ _ Hpred H) as Hlen.
    destruct (all_notes midi_data); [reflexivity|discriminate]. }
  destruct (build_on_note_events rejects out tempo
              (convert_output_note_events _ _ _ _ _ _ H) Hacc) as (evs & HF & Hb).
  exists evs. split; [exact HF|]. split.
  - rewrite (save_midi_opened rejects writeFile out file_name output_path tempo
               (called audio_path onset frame w) _ fs1 f fs2 Hne Hb Hmk Hop).
    simpl. eapply read_after_open, Hop.
  - intros Hwf. rewrite save_midi_run by exact Hne. unfold persist.
    rewrite Hb. simpl. rewrite Hmk, Hop, Hwf. reflexivity.
Qed.

Lemma converted_notes_are_saved_witness :
  exists evs,
    Forall2 (fun t ev => note_event_of t = Some ev) Fixture.sorted evs /\
    read_file
      (w_fs (snd (bind (AudioToMidi.convert_audio_to_midi Fixture.predict "/tmp/a.wav"
                          (Fixture.dyadic 1 (-1)) (Fixture.dyadic 1 (-2)))
                       (fun notes => SaveMidi.save_midi Fixture.rejects Fixture.writeFile
                                       notes "t.mid" "/tmp/out" 120) Fixture.w)))
      (Os.path_join "/tmp/out" "t.mid") =
      Some (fst (Fixture.writeFile (track_of 120 evs))) /\
    (snd (Fixture.writeFile (track_of 120 evs)) = None ->
     fst (bind (AudioToMidi.convert_audio_to_midi Fixture.predict "/tmp/a.wav"
                  (Fixture.dyadic 1 (-1)) (Fixture.dyadic 1 (-2)))
               (fun notes => SaveMidi.save_midi Fixture.rejects Fixture.writeFile
                               notes "t.mid" "/tmp/out" 120) Fixture.w) = Ok tt).
Proof.
  apply (converted_notes_are_saved Fixture.predict Fixture.rejects Fixture.writeFile
           "/tmp/a.wav" (Fixture.dyadic 1 (-1)) (Fixture.dyadic 1 (-2))
           "t.mid" "/tmp/out" 120 Fixture.w Fixture.midi_data Fixture.sorted
           (<[ ["tmp"; "out"] := Os.Dir ]> Fixture.fs)
           (["tmp"; "out"; "t.mid"],
            <[ ["tmp"; "out"; "t.mid"] := Os.File [] ]>
              (<[ ["tmp"; "out"] := Os.Dir ]> Fixture.fs))).
  - reflexivity.
  - discriminate.
  - vm_compute. reflexivity.
  - intros m ev. reflexivity.
  - vm_compute. reflexivity.
  - vm_compute. reflexivity.
Defined.

(** * The writer on paths it cannot use *)

Lemma mkdirs_on_file (cs : list string) (fs : gmap (list string) Os.node) cur p content :
  Os.resolve fs cur cs = inr p ->
  Os.lookup_node fs p = Some (Os.File content) ->
  cs <> [] ->
  Os.mkdirs fs cur cs = inl Os.EEXIST.
Proof.
  revert cur. induction cs as [|c cs IH]; intros cur Hres Hp Hne; [congruence|].
  simpl in Hres.
  destruct (Os.lookup_node fs cur) as [[?|]|] eqn:Hcur; try discriminate.
  simpl. destruct cs as [|c2 cs].
  - simpl in Hres. injection Hres as <-. rewrite Hp. reflexivity.
  - assert (Hd : Os.lookup_node fs (Os.step cur c) = Some Os.Dir).
    { simpl in Hres.
      destruct (Os.lookup_node fs (Os.step cur c)) as [[?|]|]; try discriminate.
      reflexivity. }
    rewrite Hd. apply IH; [exact Hres|exact Hp|discriminate].
Qed.

Lemma split_slash_snoc cur s :
  Os.split_slash cur (s +:+ "/") = (Os.split_slash cur s ++ [""])%list.
Proof.
  revert cur. induction s as [|c s IH]; intros cur; simpl; [reflexivity|].
  destruct (Ascii.eqb c Os.slash); simpl; rewrite IH; reflexivity.
Qed.

Lemma split_slash_not_nil cur s : Os.split_slash cur s <> [].
Proof.
  revert cur. induction s as [|c s IH]; intros cur; simpl; [discriminate|].
  destruct (Ascii.eqb c Os.slash); [discriminate|apply IH].
Qed.

Lemma append_empty_r (s : string) : s +:+ "" = s.
Proof.
  induction s as [|c s IH]; [reflexivity|].
  change (String c (s +:+ "") = String c s). f_equal. exact IH.
Qed.

(** [os.path.join(a, "")] names the directory [a]. *)
Lemma path_join_empty a :
  String.eqb a "" = false ->
  String.eqb (Os.path_join a "") "" = false /\
  Os.components (Os.path_join a "") = Os.components a /\
  Os.must_be_dir (Os.path_join a "") = true.
Proof.
  intros Ha. unfold Os.path_join. simpl. rewrite Ha. simpl.
  destruct (Os.ends_with_slash a) eqn:He.
  - rewrite append_empty_r. split; [exact Ha|]. split; [reflexivity|].
    unfold Os.ends_with_slash in He. unfold Os.must_be_dir.
    destruct (last (Os.split_slash "" a)); [|reflexivity]. rewrite He. reflexivity.
  - split; [destruct a; [discriminate|reflexivity]|].
    unfold Os.components, Os.must_be_dir. rewrite split_slash_snoc. split.
    + rewrite List.filter_app. simpl. apply app_nil_r.
    + rewrite last_snoc. reflexivity.
Qed.

(** X15. With the empty string as output directory the writer raises the
    [FileNotFoundError] of [os.makedirs] as it is, whatever the notes and
    the file name are, and writes nothing. *)
Theorem save_midi_empty_output_path
    (rejects : MidiUtil.MIDIFile -> MidiUtil.event -> option exn)
    (writeFile : MidiUtil.MIDIFile -> list byte * option exn)
    (midi_data : list (list Py.pyval)) (file_name : string) (tempo : Z) (w : world)
    (midi : MidiUtil.MIDIFile) :
  midi_data <> [] ->
  SaveMidi.build rejects midi_data tempo = Ok midi ->
  SaveMidi.save_midi rejects writeFile midi_data file_name "" tempo w =
    (Raise (Exn FileNotFoundError "[Errno 2] No such file or directory: ''"), w).
Proof.
  intros Hne Hb. rewrite save_midi_run by exact Hne. unfold persist. rewrite Hb.
  reflexivity.
Qed.

Lemma save_midi_empty_output_path_witness :
  SaveMidi.save_midi Fixture.rejects Fixture.writeFile Fixture.loud "t.mid" "" 120 Fixture.w =
    (Raise (Exn FileNotFoundError "[Errno 2] No such file or directory: ''"), Fixture.w).
Proof.
  apply (save_midi_empty_output_path Fixture.rejects Fixture.writeFile Fixture.loud
           "t.mid" 120 Fixture.w Fixture.loud_track).
  - discriminate.
  - vm_compute. reflexivity.
Defined.

(** X16. With a regular file where the output directory should be, the
    writer raises the [FileExistsError] of [os.makedirs], which names the
    path, as it is and not as a [RuntimeError], and changes no file. *)
Theorem save_midi_output_path_is_file
    (rejects : MidiUtil.MIDIFile -> MidiUtil.event -> option exn)
    (writeFile : MidiUtil.MIDIFile -> list byte * option exn)
    (midi_data : list (list Py.pyval)) (file_name output_path : string)
    (tempo : Z) (w : world) (midi : MidiUtil.MIDIFile) :
  midi_data <> [] ->
  SaveMidi.build rejects midi_data tempo = Ok midi ->
  isfile (w_fs w) output_path = true ->
  SaveMidi.save_midi rejects writeFile midi_data file_name output_path tempo w =
    (Raise (Exn FileExistsError ("[Errno 17] File exists: '" +:+ output_path +:+ "'")), w).
Proof.
  intros Hne Hb Hfile. rewrite save_midi_run by exact Hne. unfold persist. rewrite Hb.
  unfold isfile, read_file in Hfile. unfold Os.makedirs.
  destruct (String.eqb output_path ""); [discriminate|].
  destruct (Os.resolve (w_fs w) [] (Os.components output_path)) as [|p] eqn:Hres;
    [discriminate|].
  destruct (Os.lookup_node (w_fs w) p) as [[content|]|] eqn:Hp; try discriminate.
  assert (Hcs : Os.components output_path <> []).
  { intros E. rewrite E in Hres. simpl in Hres. injection Hres as <-. discriminate. }
  rewrite (mkdirs_on_file _ _ _ _ _ Hres Hp Hcs). reflexivity.
Qed.

Lemma save_midi_output_path_is_file_witness :
  SaveMidi.save_midi Fixture.rejects Fixture.writeFile Fixture.loud
    "t.mid" "/tmp/a.wav" 120 Fixture.w =
    (Raise (Exn FileExistsError "[Errno 17] File exists: '/tmp/a.wav'"), Fixture.w).
Proof.
  apply (save_midi_output_path_is_file Fixture.rejects Fixture.writeFile Fixture.loud
           "t.mid" "/tmp/a.wav" 120 Fixture.w Fixture.loud_track).
  - discriminate.
  - vm_compute. reflexivity.
  - vm_compute. reflexivity.
Defined.

(** X17. With the empty string as file name the destination is the output
    directory itself: the writer creates the directory, fails to open it,
    and raises [RuntimeError] with the message of [IsADirectoryError] after
    the prefix; no file is written. *)
Theorem save_midi_empty_file_name
    (rejects : MidiUtil.MIDIFile -> MidiUtil.event -> option exn)
    (writeFile : MidiUtil.MIDIFile -> list byte * option exn)
    (midi_data : list (list Py.pyval)) (output_path : string)
    (tempo : Z) (w : world) (midi : MidiUtil.MIDIFile)
    (fs1 : gmap (list string) Os.node) :
  midi_data <> [] ->
  SaveMidi.build rejects midi_data tempo = Ok midi ->
  Os.makedirs (w_fs w) output_path = Ok fs1 ->
  SaveMidi.save_midi rejects writeFile midi_data "" output_path tempo w =
    (Raise (Exn RuntimeError
              ("Error saving MIDI file: [Errno 21] Is a directory: '"
                 +:+ Os.path_join output_path "" +:+ "'")),
     World fs1 (w_calls w)).
Proof.
  intros Hne Hb Hmk. rewrite save_midi_run by exact Hne. unfold persist.
  rewrite Hb, Hmk.
  assert (Ha : String.eqb output_path "" = false).
  { unfold Os.makedirs in Hmk. destruct (String.eqb output_path ""); [discriminate|].
    reflexivity. }
  destruct (path_join_empty output_path Ha) as (Hj & Hc & Hd).
  unfold Os.open_wb. rewrite Hj, Hc, Hd.
  unfold Os.makedirs in Hmk. rewrite Ha in Hmk.
  destruct (Os.mkdirs (w_fs w) [] (Os.components output_path)) as [|fs0] eqn:Hm;
    [discriminate|].
  injection Hmk as <-.
  destruct (mkdirs_resolve (Os.components output_path) (w_fs w) [] fs0 eq_refl Hm)
    as (p & -> & ->).
  reflexivity.
Qed.

Lemma save_midi_empty_file_name_witness :
  SaveMidi.save_midi Fixture.rejects Fixture.writeFile Fixture.loud "" "/tmp/out" 120
    Fixture.w =
    (Raise (Exn RuntimeError "Error saving MIDI file: [Errno 21] Is a directory: '/tmp/out/'"),
     World (<[ ["tmp"; "out"] := Os.Dir ]> Fixture.fs) []).
Proof.
  apply (save_midi_empty_file_name Fixture.rejects Fixture.writeFile Fixture.loud
           "/tmp/out" 120 Fixture.w Fixture.loud_track
           (<[ ["tmp"; "out"] := Os.Dir ]> Fixture.fs)).
  - discriminate.
  - vm_compute. reflexivity.
  - vm_compute. reflexivity.
Defined.
